(** * PasteLite: the paste lifecycle and the view-consumption handlers

    A shallow embedding of the request handlers of PasteLite
    (routes/pastes.js, routes/view.js, utils/time.js, utils/validation.js and
    models/Paste.js) together with the MongoDB operations they await.

    JavaScript numbers that appear here are instants in milliseconds and view
    counters; they are integers far below 2^53 and are modelled as [Z]. *)

From Stdlib Require Import ZArith Lia Ascii String List.
From stdpp Require Import gmap strings list fin_maps.

Open Scope string_scope.
Open Scope Z_scope.

(* ===================================================================== *)
(** ** JavaScript values of the request body *)
(* ===================================================================== *)

Module JS.

(** The values of a numeric field of a JSON body that are modelled: absent,
    [null], or a JSON number that is an integer. A field sent as a string
    is not modelled (its truthiness is that of the text, not of the number
    it spells). *)
Inductive value : Type :=
| Undefined
| Null
| Num (n : Z).

(** ToBoolean. *)
Definition truthy (v : value) : bool :=
  match v with
  | Undefined => false
  | Null => false
  | Num n => negb (n =? 0)
  end.

(** [a || b]. *)
Definition or (a b : value) : value := if truthy a then a else b.

(** ToBoolean of a string: only the empty string is falsy. *)
Definition truthy_string (s : string) : bool :=
  match s with
  | EmptyString => false
  | String _ _ => true
  end.

(** *** parseInt(s, 10) *)

(** White space that parseInt skips, on the code units a header value can
    carry: TAB, LF, VT, FF, CR, SP and NBSP. *)
Definition is_white_space (c : ascii) : bool :=
  let n := N_of_ascii c in
  ((9 <=? n) && (n <=? 13) || (n =? 32) || (n =? 160))%N.

Fixpoint skip_white_space (s : string) : string :=
  match s with
  | String c rest => if is_white_space c then skip_white_space rest else s
  | EmptyString => s
  end.

Definition digit_value (c : ascii) : option Z :=
  let n := N_of_ascii c in
  if ((48 <=? n) && (n <=? 57))%N then Some (Z.of_N n - 48) else None.

(** The value of the longest prefix of decimal digits, [None] when that
    prefix is empty; [acc] is the value read so far. *)
Fixpoint digits_prefix (s : string) (acc : option Z) : option Z :=
  match s with
  | String c rest =>
      match digit_value c with
      | Some d => digits_prefix rest (Some (10 * default 0 acc + d))
      | None => acc
      end
  | EmptyString => acc
  end.

(** [parseInt(s, 10)]; [None] stands for NaN. The result is the exact
    integer, as the JavaScript number is for every instant a Date can
    hold. *)
Definition parseInt (s : string) : option Z :=
  match skip_white_space s with
  | String "-" rest => Z.opp <$> digits_prefix rest None
  | String "+" rest => digits_prefix rest None
  | t => digits_prefix t None
  end.

End JS.

(* ===================================================================== *)
(** ** Process environment and requests *)
(* ===================================================================== *)

(** What the handlers read from the process: two environment variables and
    the wall clock [Date.now()]. *)
Record Env : Type := mkEnv {
  TEST_MODE : option string;
  BASE_URL : option string;
  Date_now : Z
}.

Record Body : Type := mkBody {
  body_content : string;
  ttl_seconds : JS.value;
  max_views : JS.value
}.

Record Request : Type := mkRequest {
  headers : option (gmap string string);
  params_id : string;
  body : Body
}.

(* ===================================================================== *)
(** ** utils/time.js *)
(* ===================================================================== *)

(** [req.headers['x-test-now-ms']], once [req && req.headers] held. *)
Definition test_now_header (req : option Request) : option string :=
  match req with
  | Some r =>
      match headers r with
      | Some h => h !! "x-test-now-ms"
      | None => None
      end
  | None => None
  end.

Definition getCurrentTime (env : Env) (req : option Request) : Z :=
  let testMode :=
    match TEST_MODE env with
    | Some v => String.eqb v "1"
    | None => false
    end in
  match test_now_header req with
  | Some h =>
      if testMode && JS.truthy_string h then
        match JS.parseInt h with
        | Some testTime => if 0 <? testTime then testTime else Date_now env
        | None => Date_now env
        end
      else Date_now env
  | None => Date_now env
  end.

(* ===================================================================== *)
(** ** models/Paste.js *)
(* ===================================================================== *)

Record Paste : Type := mkPaste {
  content : string;
  createdAt : Z;
  expiresAt : option Z;
  maxViews : option Z;
  viewsUsed : Z
}.

(** The instants a Date can hold, 8.64e15 milliseconds either side of the
    epoch; [new Date] of any other number is an Invalid Date. *)
Definition date_in_range (t : Z) : bool :=
  (-8640000000000000 <=? t) && (t <=? 8640000000000000).

(** Schema validation run by [save]: [content] is a required String, which
    Mongoose refuses when empty, and a Date path refuses an Invalid Date (an
    instant outside the range of Date stands for the Invalid Date that
    [new Date] makes of it); the other required paths are always set by
    the handler. *)
Definition schema_valid (p : Paste) : bool :=
  JS.truthy_string (content p)
  && date_in_range (createdAt p)
  && match expiresAt p with
     | Some t => date_in_range t
     | None => true
     end.

(** The schema's Number cast of the [maxViews] path. *)
Definition cast_number (v : JS.value) : option Z :=
  match v with
  | JS.Num n => Some n
  | JS.Null => None
  | JS.Undefined => None
  end.

Definition with_viewsUsed (p : Paste) (n : Z) : Paste :=
  {| content := content p; createdAt := createdAt p; expiresAt := expiresAt p;
     maxViews := maxViews p; viewsUsed := n |}.

(** [{ $inc: { viewsUsed: d } }] applied to one document. *)
Definition inc_viewsUsed (d : Z) (p : Paste) : Paste :=
  with_viewsUsed p (viewsUsed p + d).

(* ===================================================================== *)
(** ** The MongoDB collection and the operations the handlers await *)
(* ===================================================================== *)

(** The [pastes] collection, keyed by the hexadecimal text of [_id] as the
    driver prints it, in lower case; a request is modelled for an
    identifier in that spelling. *)
Abbreviation Store := (gmap string Paste).

(** A handler is the tree of its [await]s: each node is one Mongoose call,
    atomic at the server, and the JavaScript that runs between two awaits is
    folded into the continuation. An exception that reaches the handler's
    [catch] is the response that [catch] sends. *)
Inductive Async (A : Type) : Type :=
| Return (a : A)
| FindById (id : string) (k : option Paste -> Async A)
| FindByIdAndUpdate (id : string) (inc : Z) (k : option Paste -> Async A)
| Save (id : string) (doc : Paste) (k : bool -> Async A).

Arguments Return {A} a.
Arguments FindById {A} id k.
Arguments FindByIdAndUpdate {A} id inc k.
Arguments Save {A} id doc k.

Inductive Call : Type :=
| CallFindById (id : string)
| CallFindByIdAndUpdate (id : string) (inc : Z)
| CallSave (id : string) (doc : Paste).

(** [Paste.findByIdAndUpdate(id, { $inc: { viewsUsed: d } })]: the counter of
    the document moves by [d] whatever its value; a missing document is left
    missing. *)
Definition update_inc (id : string) (d : Z) (db : Store) : Store :=
  alter (inc_viewsUsed d) id db.

(** [paste.save()] of a new document: [true] when it was inserted, [false]
    when validation or the unique [_id] index refused it (the call throws). *)
Definition save_accepts (id : string) (doc : Paste) (db : Store) : bool :=
  schema_valid doc && bool_decide (db !! id = None).

(** One await: the call at the root of the tree is served by the store and
    the handler resumes up to its next await. *)
Definition step {A} (p : Async A) (db : Store) : Async A * Store :=
  match p with
  | Return a => (Return a, db)
  | FindById id k => (k (db !! id), db)
  | FindByIdAndUpdate id d k => (k (db !! id), update_inc id d db)
  | Save id doc k =>
      if save_accepts id doc db then (k true, <[id := doc]> db)
      else (k false, db)
  end.

Record Run (A : Type) : Type := mkRun {
  response : A;
  final : Store;
  issued : list Call
}.

Arguments mkRun {A} response final issued.
Arguments response {A} r.
Arguments final {A} r.
Arguments issued {A} r.

(** A handler run alone, from its first line to its response. *)
Fixpoint run {A} (p : Async A) (db : Store) : Run A :=
  match p with
  | Return a => mkRun a db []
  | FindById id k =>
      let r := run (k (db !! id)) db in
      mkRun (response r) (final r) (CallFindById id :: issued r)
  | FindByIdAndUpdate id d k =>
      let r := run (k (db !! id)) (update_inc id d db) in
      mkRun (response r) (final r) (CallFindByIdAndUpdate id d :: issued r)
  | Save id doc k =>
      let ok := save_accepts id doc db in
      let r := run (k ok) (if ok then <[id := doc]> db else db) in
      mkRun (response r) (final r) (CallSave id doc :: issued r)
  end.

(** *** Several requests in flight *)

(** The requests in flight, each suspended at an await or finished. The
    schedule names, await after await, the request whose call the server
    serves next. *)
Abbreviation Pool A := (list (Async A)).

Definition step_pool {A} (i : nat) (pool : Pool A) (db : Store)
  : Pool A * Store :=
  match pool !! i with
  | Some p =>
      let '(p', db') := step p db in
      (<[i := p']> pool, db')
  | None => (pool, db)
  end.

Fixpoint run_pool {A} (schedule : list nat) (pool : Pool A) (db : Store)
  : Pool A * Store :=
  match schedule with
  | [] => (pool, db)
  | i :: rest =>
      let '(pool', db') := step_pool i pool db in
      run_pool rest pool' db'
  end.

Definition finished {A} (p : Async A) : option A :=
  match p with
  | Return a => Some a
  | _ => None
  end.

(* ===================================================================== *)
(** ** utils/validation.js: the rules on the numeric fields *)
(* ===================================================================== *)

(** [.optional().isInt({ min: 1 })]: an absent field passes, a present one
    must be an integer that is at least 1. *)
Definition optional_int_min1 (v : JS.value) : bool :=
  match v with
  | JS.Undefined => true
  | JS.Null => false
  | JS.Num n => 1 <=? n
  end.

Definition valid_ttl_seconds (b : Body) : bool := optional_int_min1 (ttl_seconds b).
Definition valid_max_views (b : Body) : bool := optional_int_min1 (max_views b).

(* ===================================================================== *)
(** ** Responses *)
(* ===================================================================== *)

Inductive Sent : Type :=
| JsonError (error : string)
| JsonCreated (id url : string)
| JsonPaste (content : string) (remaining_views : option Z)
            (expires_at : option Z)
| Html (page : string).

Record Response : Type := mkResponse {
  status : Z;
  sent : Sent
}.

(** [res.status(404).json({ error: 'Paste not found or unavailable' })] *)
Definition notFoundJson : Response :=
  mkResponse 404 (JsonError "Paste not found or unavailable").

(** [res.status(500).json({ error: 'Internal server error' })] *)
Definition serverErrorJson : Response :=
  mkResponse 500 (JsonError "Internal server error").

(* ===================================================================== *)
(** ** The liveness tests of the two GET handlers *)
(* ===================================================================== *)

(** [paste.expiresAt && new Date(paste.expiresAt).getTime() <= currentTime] *)
Definition is_expired (paste : Paste) (currentTime : Z) : bool :=
  match expiresAt paste with
  | Some t => t <=? currentTime
  | None => false
  end.

(** [paste.maxViews !== null && paste.viewsUsed >= paste.maxViews] *)
Definition limit_reached (paste : Paste) : bool :=
  match maxViews paste with
  | Some m => m <=? viewsUsed paste
  | None => false
  end.

(** The remaining views computed from the document fetched after the
    increment. *)
Definition remaining_views_of (updatedPaste : Paste) : option Z :=
  match maxViews updatedPaste with
  | Some m =>
      let remainingViews := m - viewsUsed updatedPaste in
      Some (if remainingViews <? 0 then 0 else remainingViews)
  | None => None
  end.

(** [/^[0-9a-fA-F]{24}$/] *)
Definition is_hex_digit (c : ascii) : bool :=
  let n := N_of_ascii c in
  ((48 <=? n) && (n <=? 57) || (65 <=? n) && (n <=? 70)
   || (97 <=? n) && (n <=? 102))%N.

Fixpoint hex_exactly (n : nat) (s : string) : bool :=
  match n, s with
  | O, EmptyString => true
  | S n', String c rest => is_hex_digit c && hex_exactly n' rest
  | _, _ => false
  end.

Definition objectid_regex (id : string) : bool := hex_exactly 24 id.

(* ===================================================================== *)
(** ** routes/pastes.js *)
(* ===================================================================== *)

(** [new Paste({ content, expiresAt, maxViews: max_views || null,
    viewsUsed: 0, createdAt: new Date(currentTime) })], with [expiresAt]
    computed from the TTL just above it. *)
Definition new_paste (env : Env) (req : Request) : Paste :=
  let currentTime := getCurrentTime env (Some req) in
  let expiresAt :=
    if JS.truthy (ttl_seconds (body req)) then
      match ttl_seconds (body req) with
      | JS.Num ttl => Some (currentTime + ttl * 1000)
      | _ => None
      end
    else None in
  {| content := body_content (body req);
     expiresAt := expiresAt;
     maxViews := cast_number (JS.or (max_views (body req)) JS.Null);
     viewsUsed := 0;
     createdAt := currentTime |}.

(** POST /api/pastes, after the validation middleware let the request
    through. [oid] is the ObjectId that [new Paste] draws for the document. *)
Definition pastes_post (env : Env) (oid : string) (req : Request)
  : Async Response :=
  let paste := new_paste env req in
  Save oid paste (fun saved =>
    if saved then
      let baseUrl :=
        match BASE_URL env with
        | Some u => if JS.truthy_string u then u else "http://localhost:3000"
        | None => "http://localhost:3000"
        end in
      let pasteUrl := baseUrl ++ "/p/" ++ oid in
      Return (mkResponse 201 (JsonCreated oid pasteUrl))
    else Return serverErrorJson).

(** GET /api/pastes/:id *)
Definition pastes_get (env : Env) (req : Request) : Async Response :=
  let id := params_id req in
  let currentTime := getCurrentTime env (Some req) in
  if negb (objectid_regex id) then Return notFoundJson
  else
    FindById id (fun found =>
      match found with
      | None => Return notFoundJson
      | Some paste =>
          if is_expired paste currentTime then Return notFoundJson
          else if limit_reached paste then Return notFoundJson
          else
            FindByIdAndUpdate id 1 (fun _ =>
              FindById id (fun refetched =>
                match refetched with
                | None => Return serverErrorJson
                | Some updatedPaste =>
                    Return (mkResponse 200
                              (JsonPaste (content updatedPaste)
                                         (remaining_views_of updatedPaste)
                                         (expiresAt updatedPaste)))
                end))
      end).

(* ===================================================================== *)
(** ** routes/view.js *)
(* ===================================================================== *)

Section View.

(** The three page templates; what they print is of no concern here. *)
Variable renderPastePage : Paste -> option Z -> string.
Variable render404Page : string.
Variable render500Page : string.

(** GET /p/:id *)
Definition view_get (env : Env) (req : Request) : Async Response :=
  let id := params_id req in
  let currentTime := getCurrentTime env (Some req) in
  if negb (objectid_regex id) then Return (mkResponse 404 (Html render404Page))
  else
    FindById id (fun found =>
      match found with
      | None => Return (mkResponse 404 (Html render404Page))
      | Some paste =>
          if is_expired paste currentTime
          then Return (mkResponse 404 (Html render404Page))
          else if limit_reached paste
          then Return (mkResponse 404 (Html render404Page))
          else
            FindByIdAndUpdate id 1 (fun _ =>
              FindById id (fun refetched =>
                match refetched with
                | None => Return (mkResponse 500 (Html render500Page))
                | Some updatedPaste =>
                    let html :=
                      renderPastePage updatedPaste
                                      (remaining_views_of updatedPaste) in
                    Return (mkResponse 200 (Html html))
                end))
      end).

End View.

(* ===================================================================== *)
(** ** Vocabulary of the statements *)
(* ===================================================================== *)

(** A 24-character hexadecimal string, said without the regular
    expression. *)
Definition hex24 (id : string) : Prop :=
  String.length id = 24%nat /\
  Forall (fun c => is_hex_digit c = true) (list_ascii_of_string id).

(** The 200 response built from the refetched document. *)
Definition served (updatedPaste : Paste) : Response :=
  mkResponse 200 (JsonPaste (content updatedPaste)
                            (remaining_views_of updatedPaste)
                            (expiresAt updatedPaste)).


(** The ways a handler can end, whatever the store answers at each of its
    awaits (so: whatever other requests did in between): the calls it issued
    on the way and the response it gave. *)
Inductive ends {A : Type} : Async A -> list Call -> A -> Prop :=
| ends_return (a : A) :
    ends (Return a) [] a
| ends_find (id : string) (k : option Paste -> Async A)
    (answer : option Paste) (cs : list Call) (a : A) :
    ends (k answer) cs a ->
    ends (FindById id k) (CallFindById id :: cs) a
| ends_update (id : string) (d : Z) (k : option Paste -> Async A)
    (answer : option Paste) (cs : list Call) (a : A) :
    ends (k answer) cs a ->
    ends (FindByIdAndUpdate id d k) (CallFindByIdAndUpdate id d :: cs) a
| ends_save (id : string) (doc : Paste) (k : bool -> Async A)
    (saved : bool) (cs : list Call) (a : A) :
    ends (k saved) cs a ->
    ends (Save id doc k) (CallSave id doc :: cs) a.

(** The calls that can change the collection. *)
Definition is_write (c : Call) : bool :=
  match c with
  | CallFindById _ => false
  | CallFindByIdAndUpdate _ _ => true
  | CallSave _ _ => true
  end.

(** Handlers run one after the other, none starting before the previous one
    has responded. *)
Fixpoint run_seq {A} (ps : list (Async A)) (db : Store) : list A * Store :=
  match ps with
  | [] => ([], db)
  | p :: rest =>
      let r := run p db in
      let '(rs, db') := run_seq rest (final r) in
      (response r :: rs, db')
  end.

Definition succeeded (r : Response) : bool := status r =? 200.

Definition successes (rs : list Response) : nat :=
  length (List.filter succeeded rs).

(** Why a read is refused once the identifier is well formed. *)
Inductive refusal (env : Env) (req : Request) (db : Store) : Prop :=
| refusal_not_found :
    db !! params_id req = None -> refusal env req db
| refusal_expired (paste : Paste) :
    db !! params_id req = Some paste ->
    is_expired paste (getCurrentTime env (Some req)) = true ->
    refusal env req db
| refusal_exhausted (paste : Paste) :
    db !! params_id req = Some paste ->
    limit_reached paste = true ->
    refusal env req db.


(** Every budgeted document has consumed between nothing and its budget. *)
Definition budget_respected (db : Store) : Prop :=
  forall (id : string) (paste : Paste) (m : Z),
    db !! id = Some paste -> maxViews paste = Some m ->
    0 <= viewsUsed paste <= m.

(** The JSON read handler where it is suspended: at its second await, the
    liveness tests passed, and at its third, the increment sent. *)
Definition after_increment (id : string) : Async Response :=
  FindById id (fun refetched =>
    match refetched with
    | None => Return serverErrorJson
    | Some updatedPaste =>
        Return (mkResponse 200
                  (JsonPaste (content updatedPaste)
                             (remaining_views_of updatedPaste)
                             (expiresAt updatedPaste)))
    end).

Definition after_checks (id : string) : Async Response :=
  FindByIdAndUpdate id 1 (fun _ => after_increment id).

(** [m] requests in flight served in lock step: the first await of each,
    then the second of each, then the third of each. *)
Definition lock_step (m : nat) : list nat := seq 0 m ++ seq 0 m ++ seq 0 m.

(** Requests handled one at a time. A creation passes the numeric rules of
    the validation middleware before it reaches the handler (the rule on
    [content] only narrows what can be stored further). *)
Inductive Operation : Type :=
| Create (env : Env) (oid : string) (req : Request)
| Read (env : Env) (req : Request).

Definition perform (db : Store) (op : Operation) : Store :=
  match op with
  | Create env oid req =>
      if valid_ttl_seconds (body req) && valid_max_views (body req)
      then final (run (pastes_post env oid req) db)
      else db
  | Read env req => final (run (pastes_get env req) db)
  end.

(** The scenarios used as concrete instances below. *)
Module Scenario.

Definition id1 : string := "507f1f77bcf86cd799439011".

Definition test_env : Env := mkEnv (Some "1") None 1704067200000.
Definition prod_env : Env := mkEnv None None 1704067200000.

Definition no_body : Body := mkBody "" JS.Undefined JS.Undefined.

(** A GET of [id] carrying [x-test-now-ms: now]. *)
Definition get_at (now : string) (id : string) : Request :=
  mkRequest (Some {[ "x-test-now-ms" := now ]}) id no_body.

(** A POST carrying [x-test-now-ms: now]. *)
Definition post_at (now : string) (b : Body) : Request :=
  mkRequest (Some {[ "x-test-now-ms" := now ]}) "" b.

(** One view allowed, none used, no expiry. *)
Definition one_view : Paste := mkPaste "hello" 1000 None (Some 1) 0.

(** Created at 1000 with a TTL of 60 seconds, unlimited views. *)
Definition one_minute : Paste := mkPaste "hello" 1000 (Some 61000) None 0.

(** Three views allowed, two used. *)
Definition last_view : Paste := mkPaste "hello" 1000 None (Some 3) 2.

(** Three views allowed, three used. *)
Definition used_up : Paste := mkPaste "hello" 1000 None (Some 3) 3.

(** Neither bound. *)
Definition unbounded : Paste := mkPaste "hello" 1000 None None 0.

End Scenario.

(* ===================================================================== *)
(** ** routes/view.js: escapeHtml *)
(* ===================================================================== *)

(** The character class of the replacement's regular expression: ampersand,
    less-than, greater-than, double quote and apostrophe. *)
Definition needs_escape (c : ascii) : bool :=
  Ascii.eqb c "&" || Ascii.eqb c "<" || Ascii.eqb c ">"
  || Ascii.eqb c "034" || Ascii.eqb c "'".

(** [map[m]]: the entity of a key of the object [map], [None] for any other
    character. *)
Definition entity (m : ascii) : option string :=
  if Ascii.eqb m "&" then Some "&amp;"
  else if Ascii.eqb m "<" then Some "&lt;"
  else if Ascii.eqb m ">" then Some "&gt;"
  else if Ascii.eqb m "034" then Some "&quot;"
  else if Ascii.eqb m "'" then Some "&#039;"
  else None.

(** [text.replace(class, m => map[m])] with the global flag: every
    character of the class is replaced by what the callback returns, the
    others are copied. *)
Fixpoint escapeHtml (text : string) : string :=
  match text with
  | EmptyString => EmptyString
  | String c rest =>
      (if needs_escape c then default "undefined" (entity c)
       else String c EmptyString)
      ++ escapeHtml rest
  end.

(** The characters that open or close markup or an attribute value. *)
Definition is_markup (c : ascii) : bool :=
  Ascii.eqb c "<" || Ascii.eqb c ">" || Ascii.eqb c "034" || Ascii.eqb c "'".

(* ===================================================================== *)
(** ** Vocabulary of the further statements *)
(* ===================================================================== *)

(** Whether a text begins with a decimal digit. *)
Definition starts_with_digit (t : string) : bool :=
  match t with
  | String c _ => bool_decide (is_Some (JS.digit_value c))
  | EmptyString => false
  end.

(** A handler all of whose increments are by a non-negative amount,
    whatever the store answers. *)
Inductive counts_up {A : Type} : Async A -> Prop :=
| counts_up_return (a : A) :
    counts_up (Return a)
| counts_up_find (id : string) (k : option Paste -> Async A) :
    (forall answer, counts_up (k answer)) -> counts_up (FindById id k)
| counts_up_update (id : string) (d : Z) (k : option Paste -> Async A) :
    0 <= d -> (forall answer, counts_up (k answer)) ->
    counts_up (FindByIdAndUpdate id d k)
| counts_up_save (id : string) (doc : Paste) (k : bool -> Async A) :
    (forall saved, counts_up (k saved)) -> counts_up (Save id doc k).

(** Where a JSON read of the paste [id] stands, with the number of views it
    has added to the counter so far. *)
Inductive read_stage (id : string) : Async Response -> Z -> Prop :=
| read_stage_start (env : Env) (req : Request) :
    params_id req = id -> read_stage id (pastes_get env req) 0
| read_stage_checked :
    read_stage id (after_checks id) 0
| read_stage_incremented :
    read_stage id (after_increment id) 1
| read_stage_refused :
    read_stage id (Return notFoundJson) 0
| read_stage_served (updatedPaste : Paste) :
    read_stage id (Return (served updatedPaste)) 1.

Definition total (cs : list Z) : Z := foldr Z.add 0 cs.

Section Requests.

Variable renderPastePage : Paste -> option Z -> string.
Variables render404Page render500Page : string.

(** A request to one of the three paste routes. *)
Inductive Invocation : Type :=
| PostPaste (env : Env) (oid : string) (req : Request)
| GetPaste (env : Env) (req : Request)
| ViewPaste (env : Env) (req : Request).

Definition start (inv : Invocation) : Async Response :=
  match inv with
  | PostPaste env oid req => pastes_post env oid req
  | GetPaste env req => pastes_get env req
  | ViewPaste env req =>
      view_get renderPastePage render404Page render500Page env req
  end.

(** The POST route lets a request reach its handler only if the numeric
    rules of the validation middleware hold. *)
Definition admitted (inv : Invocation) : bool :=
  match inv with
  | PostPaste _ _ req =>
      valid_ttl_seconds (body req) && valid_max_views (body req)
  | _ => true
  end.

(** Requests handled one at a time; one that the middleware turns away
    leaves the collection alone. *)
Definition handle (db : Store) (inv : Invocation) : Store :=
  if admitted inv then final (run (start inv) db) else db.

(** A read of one paste through the HTML route ([true]) or the JSON route
    ([false]). *)
Definition read_via (env : Env) (req : Request) (html : bool)
  : Async Response :=
  if html then view_get renderPastePage render404Page render500Page env req
  else pastes_get env req.

End Requests.

(** Where a JSON read of the paste [id] stands, for reads that carry a
    well-formed identifier and a clock before the expiry of [paste], whose
    budget is [N]; [v] is the counter as stored now. A read that was
    refused found the budget used up. *)
Inductive budget_stage (id : string) (paste : Paste) (N v : Z)
  : Async Response -> Prop :=
| budget_stage_start (env : Env) (req : Request) :
    params_id req = id ->
    objectid_regex id = true ->
    is_expired paste (getCurrentTime env (Some req)) = false ->
    budget_stage id paste N v (pastes_get env req)
| budget_stage_checked :
    budget_stage id paste N v (after_checks id)
| budget_stage_incremented :
    budget_stage id paste N v (after_increment id)
| budget_stage_refused :
    N <= v -> budget_stage id paste N v (Return notFoundJson)
| budget_stage_served (updatedPaste : Paste) :
    budget_stage id paste N v (Return (served updatedPaste)).

(* ===================================================================== *)
(** ** The clock header, said without the parser *)
(* ===================================================================== *)

Definition decimal_digit (c : ascii) : bool :=
  let n := N_of_ascii c in ((48 <=? n) && (n <=? 57))%N.

(** TAB, LF, VT, FF, CR, SP, NBSP. *)
Definition white_space_char (c : ascii) : bool :=
  existsb (N.eqb (N_of_ascii c)) [9; 10; 11; 12; 13; 32; 160]%N.


Fixpoint all_chars (P : ascii -> bool) (s : string) : bool :=
  match s with
  | EmptyString => true
  | String c rest => P c && all_chars P rest
  end.

Definition starts_with (P : ascii -> bool) (s : string) : bool :=
  match s with
  | EmptyString => false
  | String c _ => P c
  end.

(** The integer a run of decimal digits spells, read after [acc]. *)
Fixpoint numeral_from (acc : Z) (ds : string) : Z :=
  match ds with
  | EmptyString => acc
  | String c rest => numeral_from (10 * acc + (Z.of_N (N_of_ascii c) - 48)) rest
  end.

Definition numeral_value (ds : string) : Z := numeral_from 0 ds.

(** One decimal digit or more, and nothing else. *)
Definition decimal_numeral (s : string) : bool :=
  JS.truthy_string s && all_chars decimal_digit s.

Inductive Sign : Type := Unsigned | Plus | Minus.

Definition sign_text (sg : Sign) : string :=
  match sg with
  | Unsigned => ""
  | Plus => "+"
  | Minus => "-"
  end.

Definition signed (sg : Sign) (v : Z) : Z :=
  match sg with
  | Minus => - v
  | _ => v
  end.

(** A header that carries an integer in front: white space if any, a sign
    if any, one digit or more, and then whatever follows the digits. *)
Inductive reads_as : string -> Z -> Prop :=
| reads_as_intro (ws : string) (sg : Sign) (ds rest : string) :
    all_chars white_space_char ws = true ->
    decimal_numeral ds = true ->
    starts_with decimal_digit rest = false ->
    reads_as (ws ++ sign_text sg ++ ds ++ rest) (signed sg (numeral_value ds)).



(** A valid positive instant in the plain sense: the decimal numeral of a
    positive integer. *)
Definition valid_positive_instant (h : string) : bool :=
  decimal_numeral h && (0 <? numeral_value h).

(** The clock that takes an override only if it is a valid positive instant
    in that sense. *)
Definition now_as_claimed (env : Env) (req : option Request) : Z :=
  let deterministic :=
    match TEST_MODE env with
    | Some v => String.eqb v "1"
    | None => false
    end in
  match test_now_header req with
  | Some h =>
      if deterministic && valid_positive_instant h then numeral_value h
      else Date_now env
  | None => Date_now env
  end.

(* ===================================================================== *)
(** ** Vocabulary of the statements on one read among others *)
(* ===================================================================== *)


(** A collection in which the paste [oid] is stored with an unlimited
    budget. *)
Definition stored_unlimited (db : Store) (oid : string) : Prop :=
  exists doc, db !! oid = Some doc /\ maxViews doc = None.
(* ===================================================================== *)
(** ** Facts about the store operations *)
(* ===================================================================== *)

Lemma update_inc_lookup (id : string) (d : Z) (db : Store) :
  update_inc id d db !! id = inc_viewsUsed d <$> db !! id.
Proof. apply lookup_alter_eq. Qed.

Lemma update_inc_lookup_ne (id j : string) (d : Z) (db : Store) :
  id ≠ j -> update_inc id d db !! j = db !! j.
Proof. intros Hne. unfold update_inc. by rewrite lookup_alter_ne. Qed.

Lemma update_inc_insert (id : string) (d : Z) (db : Store) (p : Paste) :
  db !! id = Some p ->
  update_inc id d db = <[id := inc_viewsUsed d p]> db.
Proof.
  intros Hp. apply map_eq. intros j.
  destruct (decide (id = j)) as [<-|Hne].
  - by rewrite update_inc_lookup, Hp, lookup_insert_eq.
  - by rewrite update_inc_lookup_ne, lookup_insert_ne.
Qed.

(* ===================================================================== *)
(** ** The identifier pattern *)
(* ===================================================================== *)

Lemma hex_exactly_spec (n : nat) (s : string) :
  hex_exactly n s = true <->
  String.length s = n /\
  Forall (fun c => is_hex_digit c = true) (list_ascii_of_string s).
Proof.
  revert s. induction n as [|n IH]; intros [|c s]; simpl.
  - split; [intros _; split; [reflexivity | constructor] | reflexivity].
  - split; [discriminate | intros [H _]; discriminate H].
  - split; [discriminate | intros [H _]; discriminate H].
  - rewrite andb_true_iff, IH. split.
    + intros [Hc [Hlen Hall]]. split; [by rewrite Hlen | by constructor].
    + intros [Hlen Hall]. inversion Hall; subst.
      repeat split; [done | by injection Hlen | done].
Qed.

Lemma objectid_regex_hex24 (id : string) :
  objectid_regex id = true <-> hex24 id.
Proof. apply hex_exactly_spec. Qed.

(* ===================================================================== *)
(** ** GET /api/pastes/:id run alone *)
(* ===================================================================== *)

Lemma run_pastes_get (env : Env) (req : Request) (db : Store) :
  run (pastes_get env req) db =
  let id := params_id req in
  let now := getCurrentTime env (Some req) in
  if objectid_regex id then
    match db !! id with
    | Some paste =>
        if is_expired paste now || limit_reached paste
        then mkRun notFoundJson db [CallFindById id]
        else mkRun (served (inc_viewsUsed 1 paste)) (update_inc id 1 db)
                   [CallFindById id; CallFindByIdAndUpdate id 1;
                    CallFindById id]
    | None => mkRun notFoundJson db [CallFindById id]
    end
  else mkRun notFoundJson db [].
Proof.
  unfold pastes_get. cbv zeta.
  destruct (objectid_regex (params_id req)); simpl; [|reflexivity].
  destruct (db !! params_id req) as [paste|] eqn:Hdb; simpl; [|reflexivity].
  destruct (is_expired paste _); simpl; [reflexivity|].
  destruct (limit_reached paste); simpl; [reflexivity|].
  rewrite update_inc_lookup, Hdb. reflexivity.
Qed.

Section ViewAlone.

Variable renderPastePage : Paste -> option Z -> string.
Variables render404Page render500Page : string.

Lemma run_view_get (env : Env) (req : Request) (db : Store) :
  run (view_get renderPastePage render404Page render500Page env req) db =
  let id := params_id req in
  let now := getCurrentTime env (Some req) in
  let notFoundPage := mkResponse 404 (Html render404Page) in
  if objectid_regex id then
    match db !! id with
    | Some paste =>
        if is_expired paste now || limit_reached paste
        then mkRun notFoundPage db [CallFindById id]
        else
          let updatedPaste := inc_viewsUsed 1 paste in
          mkRun (mkResponse 200
                   (Html (renderPastePage updatedPaste
                            (remaining_views_of updatedPaste))))
                (update_inc id 1 db)
                [CallFindById id; CallFindByIdAndUpdate id 1;
                 CallFindById id]
    | None => mkRun notFoundPage db [CallFindById id]
    end
  else mkRun notFoundPage db [].
Proof.
  unfold view_get. cbv zeta.
  destruct (objectid_regex (params_id req)); simpl; [|reflexivity].
  destruct (db !! params_id req) as [paste|] eqn:Hdb; simpl; [|reflexivity].
  destruct (is_expired paste _); simpl; [reflexivity|].
  destruct (limit_reached paste); simpl; [reflexivity|].
  rewrite update_inc_lookup, Hdb. reflexivity.
Qed.

(** The HTML route touches the store exactly as the JSON route does and
    answers with the same status. *)
Lemma view_get_mirrors_pastes_get (env : Env) (req : Request) (db : Store) :
  let v := run (view_get renderPastePage render404Page render500Page
                         env req) db in
  let a := run (pastes_get env req) db in
  final v = final a /\ issued v = issued a /\
  status (response v) = status (response a).
Proof.
  cbv zeta. rewrite run_view_get, run_pastes_get. cbv zeta.
  destruct (objectid_regex _); [|done].
  destruct (db !! _) as [paste|]; [|done].
  destruct (_ || _); done.
Qed.

End ViewAlone.

(* ===================================================================== *)
(** ** Malformed identifiers *)
(* ===================================================================== *)

(** C9. An identifier that is not a 24-character hexadecimal string is
    answered 404 at once: the handler of either GET route is a bare response
    with no await in it, so run against any store it leaves the store as it
    was and issues no call at all. *)
Theorem malformed_id_no_backend_call (env : Env) (req : Request) :
  ~ hex24 (params_id req) ->
  pastes_get env req = Return notFoundJson /\
  (forall db : Store,
      run (pastes_get env req) db = mkRun notFoundJson db []) /\
  (forall (renderPastePage : Paste -> option Z -> string)
          (render404Page render500Page : string),
      view_get renderPastePage render404Page render500Page env req
      = Return (mkResponse 404 (Html render404Page))).
Proof.
  intros Hbad.
  assert (Hre : objectid_regex (params_id req) = false).
  { destruct (objectid_regex (params_id req)) eqn:E; [|reflexivity].
    exfalso. apply Hbad. by apply objectid_regex_hex24. }
  unfold pastes_get, view_get. cbv zeta. rewrite Hre. simpl.
  repeat split; reflexivity.
Qed.

Lemma malformed_id_no_backend_call_witness :
  ~ hex24 (params_id (Scenario.get_at "5" "not-an-object-id")) /\
  pastes_get Scenario.test_env (Scenario.get_at "5" "not-an-object-id")
  = Return notFoundJson.
Proof.
  assert (Hbad : ~ hex24 (params_id (Scenario.get_at "5" "not-an-object-id"))).
  { intros [Hlen _]. vm_compute in Hlen. discriminate Hlen. }
  split; [exact Hbad|].
  exact (proj1 (malformed_id_no_backend_call Scenario.test_env
                  (Scenario.get_at "5" "not-an-object-id") Hbad)).
Defined.

(* ===================================================================== *)
(** ** The read budget, one request at a time *)
(* ===================================================================== *)

(** C3. A paste with a budget of [N >= 1] views that has not expired: the
    read that finds [N - 1] views used is served (and is the last one, with
    no view remaining and the counter at [N]); the read that finds [N] views
    used is answered 404 and changes nothing. *)
Theorem nth_read_served_next_refused
    (env : Env) (req : Request) (db : Store) (paste : Paste) (N : Z) :
  objectid_regex (params_id req) = true ->
  db !! params_id req = Some paste ->
  maxViews paste = Some N ->
  0 < N ->
  is_expired paste (getCurrentTime env (Some req)) = false ->
  (viewsUsed paste = N - 1 ->
   response (run (pastes_get env req) db)
   = mkResponse 200 (JsonPaste (content paste) (Some 0) (expiresAt paste)) /\
   final (run (pastes_get env req) db)
   = <[params_id req := with_viewsUsed paste N]> db) /\
  (viewsUsed paste = N ->
   response (run (pastes_get env req) db) = notFoundJson /\
   final (run (pastes_get env req) db) = db).
Proof.
  intros Hid Hdb Hmax HN Hlive.
  rewrite run_pastes_get. cbv zeta. rewrite Hid, Hdb, Hlive.
  unfold limit_reached. rewrite Hmax. simpl. split; intros Hused.
  - replace (N <=? viewsUsed paste) with false by lia. simpl. split.
    + unfold served, remaining_views_of, inc_viewsUsed. simpl.
      rewrite Hmax. repeat f_equal.
      replace (N - (viewsUsed paste + 1)) with 0 by lia. reflexivity.
    + rewrite (update_inc_insert _ _ _ _ Hdb). unfold inc_viewsUsed.
      by replace (viewsUsed paste + 1) with N by lia.
  - replace (N <=? viewsUsed paste) with true by lia. done.
Qed.

Lemma nth_read_served_next_refused_witness :
  response (run (pastes_get Scenario.test_env
                   (Scenario.get_at "5000" Scenario.id1))
                {[ Scenario.id1 := Scenario.last_view ]})
  = mkResponse 200 (JsonPaste "hello" (Some 0) None) /\
  response (run (pastes_get Scenario.test_env
                   (Scenario.get_at "5000" Scenario.id1))
                {[ Scenario.id1 := Scenario.used_up ]})
  = notFoundJson.
Proof.
  split.
  - refine (proj1 (proj1
      (nth_read_served_next_refused Scenario.test_env
         (Scenario.get_at "5000" Scenario.id1)
         {[ Scenario.id1 := Scenario.last_view ]} Scenario.last_view 3
         _ _ _ _ _) _)); reflexivity.
  - refine (proj1 (proj2
      (nth_read_served_next_refused Scenario.test_env
         (Scenario.get_at "5000" Scenario.id1)
         {[ Scenario.id1 := Scenario.used_up ]} Scenario.used_up 3
         _ _ _ _ _) _)); reflexivity.
Defined.

(* ===================================================================== *)
(** ** Expiry *)
(* ===================================================================== *)

(** A paste created with a TTL of [T] seconds expires [T * 1000]
    milliseconds after its creation instant. *)
Lemma ttl_sets_expiresAt (env : Env) (req : Request) (T : Z) :
  ttl_seconds (body req) = JS.Num T ->
  T <> 0 ->
  expiresAt (new_paste env req)
  = Some (createdAt (new_paste env req) + T * 1000).
Proof.
  intros HT Hnz. unfold new_paste. simpl. rewrite HT. simpl.
  by destruct (Z.eqb_spec T 0).
Qed.

(** Created at 1000 with a TTL of 60 seconds: read at 60999 it is served,
    read at 61000 it is gone. *)
Example created_with_ttl_then_read :
  let created :=
    final (run (pastes_post Scenario.test_env Scenario.id1
                  (Scenario.post_at "1000"
                     (mkBody "hello" (JS.Num 60) JS.Undefined))) ∅) in
  status (response (run (pastes_get Scenario.test_env
                           (Scenario.get_at "60999" Scenario.id1)) created))
  = 200 /\
  response (run (pastes_get Scenario.test_env
                   (Scenario.get_at "61000" Scenario.id1)) created)
  = notFoundJson.
Proof. split; reflexivity. Qed.



(* ===================================================================== *)
(** ** What a read changes *)
(* ===================================================================== *)

Lemma run_ends {A : Type} (p : Async A) (db : Store) :
  ends p (issued (run p db)) (response (run p db)).
Proof.
  revert db. induction p as [a|id k IH|id d k IH|id doc k IH]; intros db;
    simpl; econstructor; eauto.
Qed.

(** Every way the JSON read handler can end, under any answers of the
    store. *)
Lemma pastes_get_ends (env : Env) (req : Request) (cs : list Call)
    (r : Response) :
  ends (pastes_get env req) cs r ->
  let id := params_id req in
  (r = notFoundJson /\ (cs = [] \/ cs = [CallFindById id])) \/
  ((r = serverErrorJson \/ exists updatedPaste, r = served updatedPaste) /\
   cs = [CallFindById id; CallFindByIdAndUpdate id 1; CallFindById id]).
Proof.
  unfold pastes_get. cbv zeta.
  destruct (objectid_regex (params_id req)); simpl; intros H.
  - inversion H as [|? ? found ? ? H1| |]; subst; clear H.
    destruct found as [paste|].
    + destruct (is_expired paste _).
      { inversion H1; subst. left. eauto. }
      destruct (limit_reached paste).
      { inversion H1; subst. left. eauto. }
      inversion H1 as [| |? ? ? ? ? ? H2|]; subst; clear H1.
      inversion H2 as [|? ? refetched ? ? H3| |]; subst; clear H2.
      destruct refetched as [updatedPaste|]; inversion H3; subst; right;
        split; eauto.
    + inversion H1; subst. left. eauto.
  - inversion H; subst. left. eauto.
Qed.

(** C5. A read that is answered 404 leaves the collection exactly as it
    was, and a read that is answered 200 changes one thing only: the
    [viewsUsed] of the paste it served, by one. No interleaving changes the
    first part: on no path to a 404 does the handler issue a writing
    call. *)
Theorem refused_read_mutates_nothing
    (env : Env) (req : Request) (db : Store) :
  (status (response (run (pastes_get env req) db)) = 404 ->
   final (run (pastes_get env req) db) = db) /\
  (status (response (run (pastes_get env req) db)) = 200 ->
   exists paste,
     db !! params_id req = Some paste /\
     final (run (pastes_get env req) db)
     = <[params_id req := with_viewsUsed paste (viewsUsed paste + 1)]> db) /\
  (forall (cs : list Call) (r : Response),
      ends (pastes_get env req) cs r -> status r = 404 ->
      forallb (fun c => negb (is_write c)) cs = true).
Proof.
  repeat split.
  - rewrite run_pastes_get. cbv zeta.
    destruct (objectid_regex _); [|done].
    destruct (db !! _) as [paste|]; [|done].
    destruct (_ || _); [done|]. simpl. discriminate.
  - rewrite run_pastes_get. cbv zeta.
    destruct (objectid_regex _); [|discriminate].
    destruct (db !! _) as [paste|] eqn:Hdb; [|discriminate].
    destruct (_ || _); [discriminate|]. simpl. intros _.
    exists paste. split; [reflexivity|]. by apply update_inc_insert.
  - intros cs r Hends Hstatus.
    destruct (pastes_get_ends _ _ _ _ Hends)
      as [[_ [-> | ->]] | [[-> | [u ->]] _]]; try reflexivity;
      discriminate Hstatus.
Qed.

Lemma refused_read_mutates_nothing_witness :
  final (run (pastes_get Scenario.test_env
                (Scenario.get_at "5000" Scenario.id1))
             {[ Scenario.id1 := Scenario.used_up ]})
  = {[ Scenario.id1 := Scenario.used_up ]} /\
  exists paste,
    ({[ Scenario.id1 := Scenario.last_view ]} : Store)
    !! params_id (Scenario.get_at "5000" Scenario.id1) = Some paste /\
    final (run (pastes_get Scenario.test_env
                  (Scenario.get_at "5000" Scenario.id1))
               {[ Scenario.id1 := Scenario.last_view ]})
    = <[params_id (Scenario.get_at "5000" Scenario.id1)
        := with_viewsUsed paste (viewsUsed paste + 1)]>
        {[ Scenario.id1 := Scenario.last_view ]}.
Proof.
  split.
  - exact (proj1 (refused_read_mutates_nothing Scenario.test_env
                    (Scenario.get_at "5000" Scenario.id1)
                    {[ Scenario.id1 := Scenario.used_up ]}) eq_refl).
  - exact (proj1 (proj2 (refused_read_mutates_nothing Scenario.test_env
                    (Scenario.get_at "5000" Scenario.id1)
                    {[ Scenario.id1 := Scenario.last_view ]})) eq_refl).
Defined.

(* ===================================================================== *)
(** ** One answer for every refusal *)
(* ===================================================================== *)

(** C6. Two reads refused because the paste is not found, has expired or has
    used up its views receive the very same response, status and body, on
    the JSON route and likewise on the HTML route; and on no path does the
    JSON handler send a 404 other than that one. *)
Theorem refusals_are_indistinguishable
    (env1 env2 : Env) (req1 req2 : Request) (db1 db2 : Store) :
  refusal env1 req1 db1 ->
  refusal env2 req2 db2 ->
  response (run (pastes_get env1 req1) db1) = notFoundJson /\
  response (run (pastes_get env1 req1) db1)
  = response (run (pastes_get env2 req2) db2) /\
  (forall (renderPastePage : Paste -> option Z -> string)
          (render404Page render500Page : string),
      response (run (view_get renderPastePage render404Page render500Page
                              env1 req1) db1)
      = response (run (view_get renderPastePage render404Page render500Page
                                env2 req2) db2)) /\
  (forall (cs : list Call) (r : Response),
      ends (pastes_get env1 req1) cs r -> status r = 404 ->
      r = notFoundJson).
Proof.
  intros H1 H2.
  assert (Hjson : forall env req db, refusal env req db ->
            response (run (pastes_get env req) db) = notFoundJson).
  { intros env req db Href. rewrite run_pastes_get. cbv zeta.
    destruct (objectid_regex _); [|done].
    destruct Href as [Hdb | paste Hdb Hexp | paste Hdb Hlim]; rewrite Hdb;
      [done | by rewrite Hexp | by rewrite Hlim, orb_true_r]. }
  assert (Hhtml : forall rp r404 r500 env req db, refusal env req db ->
            response (run (view_get rp r404 r500 env req) db)
            = mkResponse 404 (Html r404)).
  { intros rp r404 r500 env req db Href. rewrite run_view_get. cbv zeta.
    destruct (objectid_regex _); [|done].
    destruct Href as [Hdb | paste Hdb Hexp | paste Hdb Hlim]; rewrite Hdb;
      [done | by rewrite Hexp | by rewrite Hlim, orb_true_r]. }
  repeat split.
  - by apply Hjson.
  - by rewrite !Hjson.
  - intros rp r404 r500. by rewrite !Hhtml.
  - intros cs r Hends Hstatus.
    destruct (pastes_get_ends _ _ _ _ Hends)
      as [[-> _] | [[-> | [u ->]] _]]; [reflexivity | discriminate..].
Qed.

Lemma refusals_are_indistinguishable_witness :
  response (run (pastes_get Scenario.test_env
                   (Scenario.get_at "61000" Scenario.id1))
                {[ Scenario.id1 := Scenario.one_minute ]})
  = response (run (pastes_get Scenario.prod_env
                     (Scenario.get_at "5000" Scenario.id1))
                  {[ Scenario.id1 := Scenario.used_up ]}).
Proof.
  refine (proj1 (proj2
    (refusals_are_indistinguishable Scenario.test_env Scenario.prod_env
       (Scenario.get_at "61000" Scenario.id1)
       (Scenario.get_at "5000" Scenario.id1)
       {[ Scenario.id1 := Scenario.one_minute ]}
       {[ Scenario.id1 := Scenario.used_up ]} _ _))).
  - apply (refusal_expired _ _ _ Scenario.one_minute); reflexivity.
  - apply (refusal_exhausted _ _ _ Scenario.used_up); reflexivity.
Defined.

(* ===================================================================== *)
(** ** Remaining views *)
(* ===================================================================== *)



(* ===================================================================== *)
(** ** The clock *)
(* ===================================================================== *)

Example parseInt_instant : JS.parseInt "1704067261000" = Some 1704067261000.
Proof. reflexivity. Qed.

Example parseInt_leading_digits : JS.parseInt " 12abc" = Some 12.
Proof. reflexivity. Qed.

Example parseInt_negative : JS.parseInt "-5" = Some (-5).
Proof. reflexivity. Qed.

Example parseInt_not_a_number : JS.parseInt "soon" = None.
Proof. reflexivity. Qed.

Lemma getCurrentTime_cases (env : Env) (req : option Request) :
  getCurrentTime env req =
  match TEST_MODE env, test_now_header req with
  | Some mode, Some h =>
      if String.eqb mode "1" then
        match JS.parseInt h with
        | Some t => if 0 <? t then t else Date_now env
        | None => Date_now env
        end
      else Date_now env
  | _, _ => Date_now env
  end.
Proof.
  unfold getCurrentTime.
  destruct (TEST_MODE env) as [mode|], (test_now_header req) as [h|];
    try reflexivity.
  destruct (String.eqb mode "1"); [|reflexivity].
  destruct h; reflexivity.
Qed.

(* ===================================================================== *)
(** ** Creating a paste *)
(* ===================================================================== *)

Lemma run_pastes_post (env : Env) (oid : string) (req : Request) (db : Store) :
  issued (run (pastes_post env oid req) db)
  = [CallSave oid (new_paste env req)] /\
  (status (response (run (pastes_post env oid req) db)) = 201 /\
   db !! oid = None /\
   final (run (pastes_post env oid req) db) = <[oid := new_paste env req]> db
   \/
   response (run (pastes_post env oid req) db) = serverErrorJson /\
   final (run (pastes_post env oid req) db) = db).
Proof.
  unfold pastes_post. cbv zeta. simpl. unfold save_accepts.
  destruct (schema_valid _); simpl; [|by split; [|right]].
  case_bool_decide; simpl; split; try reflexivity; [left | right]; done.
Qed.

(** The validation rule in front of the handler refuses a [max_views]
    of 0. *)
Lemma validator_refuses_zero_max_views (b : Body) :
  max_views b = JS.Num 0 -> valid_max_views b = false.
Proof. unfold valid_max_views. by intros ->. Qed.

(* ===================================================================== *)
(** ** Requests handled one at a time keep the budget *)
(* ===================================================================== *)

Lemma pastes_get_keeps_budget (env : Env) (req : Request) (db : Store) :
  budget_respected db ->
  budget_respected (final (run (pastes_get env req) db)).
Proof.
  intros Hinv. rewrite run_pastes_get. cbv zeta.
  destruct (objectid_regex _); [|done].
  destruct (db !! params_id req) as [paste|] eqn:Hdb; [|done].
  destruct (is_expired paste _); [done|].
  destruct (limit_reached paste) eqn:Hlim; [done|]. simpl.
  intros j q m Hq Hm.
  destruct (decide (params_id req = j)) as [<-|Hne].
  - rewrite update_inc_lookup, Hdb in Hq. injection Hq as <-.
    simpl in Hm. unfold limit_reached in Hlim. rewrite Hm in Hlim.
    specialize (Hinv _ _ _ Hdb Hm). simpl. lia.
  - rewrite update_inc_lookup_ne in Hq by done. eauto.
Qed.

Lemma pastes_post_keeps_budget
    (env : Env) (oid : string) (req : Request) (db : Store) :
  valid_max_views (body req) = true ->
  budget_respected db ->
  budget_respected (final (run (pastes_post env oid req) db)).
Proof.
  intros Hvalid Hinv.
  destruct (run_pastes_post env oid req db) as [_ [(_ & _ & ->) | [_ ->]]];
    [|done].
  intros j q m Hq Hm.
  destruct (decide (oid = j)) as [<-|Hne].
  - rewrite lookup_insert_eq in Hq. injection Hq as <-.
    unfold new_paste, JS.or in Hm. simpl in *.
    unfold valid_max_views in Hvalid.
    destruct (max_views (body req)) as [| |n]; simpl in *; try discriminate.
    destruct (Z.eqb_spec n 0); simpl in *; [discriminate|].
    injection Hm as <-. lia.
  - rewrite lookup_insert_ne in Hq by done. eauto.
Qed.

(** Whatever requests were handled, one at a time, since the collection was
    empty: every budgeted paste has used between 0 and [maxViews] views. *)
Lemma sequential_budget_invariant (ops : list Operation) :
  budget_respected (foldl perform ∅ ops).
Proof.
  assert (Hgen : forall db, budget_respected db ->
                            budget_respected (foldl perform db ops)).
  { induction ops as [|op ops IH]; intros db Hinv; [done|]. simpl.
    apply IH. destruct op as [env oid req | env req]; cbn [perform].
    - destruct (valid_ttl_seconds _); [|done]. cbn [andb].
      destruct (valid_max_views _) eqn:Hv; [|done].
      by apply pastes_post_keeps_budget.
    - by apply pastes_get_keeps_budget. }
  apply Hgen. intros j q m Hq. by rewrite lookup_empty in Hq.
Qed.

(** A request handled alone never lowers a counter, and never touches the
    other fields of a stored paste. *)
Lemma perform_monotone (db : Store) (op : Operation) (id : string)
    (paste : Paste) :
  db !! id = Some paste ->
  exists n : Z,
    viewsUsed paste <= n /\
    perform db op !! id = Some (with_viewsUsed paste n).
Proof.
  intros Hdb.
  assert (Hsame : db !! id = Some (with_viewsUsed paste (viewsUsed paste))).
  { rewrite Hdb. by destruct paste. }
  destruct op as [env oid req | env req]; cbn [perform].
  - exists (viewsUsed paste). split; [lia|].
    destruct (_ && _); [|done].
    destruct (run_pastes_post env oid req db) as [_ [(_ & Hfresh & ->) | [_ ->]]];
      [|done].
    rewrite lookup_insert_ne; [done|]. intros ->. congruence.
  - rewrite run_pastes_get. cbv zeta.
    destruct (objectid_regex _); [|exists (viewsUsed paste); split; [lia|done]].
    destruct (db !! params_id req) as [found|] eqn:Hfound;
      [|exists (viewsUsed paste); split; [lia|done]].
    destruct (_ || _); [exists (viewsUsed paste); split; [lia|done]|].
    simpl. destruct (decide (params_id req = id)) as [<-|Hne].
    + exists (viewsUsed paste + 1). split; [lia|].
      rewrite Hfound in Hdb. injection Hdb as ->.
      by rewrite update_inc_lookup, Hfound.
    + exists (viewsUsed paste). split; [lia|].
      by rewrite update_inc_lookup_ne.
Qed.

(** [n] reads in a row of a paste with [N] views allowed and [used] of them
    consumed, that does not expire meanwhile: exactly the first [N - used]
    are served. *)
Lemma sequential_reads_served
    (env : Env) (req : Request) (n : nat) (db : Store) (paste : Paste)
    (N : Z) :
  objectid_regex (params_id req) = true ->
  db !! params_id req = Some paste ->
  maxViews paste = Some N ->
  is_expired paste (getCurrentTime env (Some req)) = false ->
  viewsUsed paste <= N ->
  successes (fst (run_seq (replicate n (pastes_get env req)) db))
  = Nat.min n (Z.to_nat (N - viewsUsed paste)).
Proof.
  intros Hid. revert db paste.
  induction n as [|n IH]; intros db paste Hdb Hmax Hlive Hle; [done|].
  cbn [replicate run_seq]. rewrite run_pastes_get. cbv zeta.
  rewrite Hid, Hdb, Hlive. unfold limit_reached. rewrite Hmax. simpl.
  destruct (Z.leb_spec N (viewsUsed paste)) as [Hfull|Hroom]; cbn [orb].
  - specialize (IH db paste Hdb Hmax Hlive Hle).
    replace (Z.to_nat (N - viewsUsed paste)) with 0%nat in * by lia.
    rewrite Nat.min_0_r in *. cbn [final response].
    destruct (run_seq _ db) as [rs db'] eqn:Hrest. exact IH.
  - cbn [final response]. rewrite (update_inc_insert _ _ _ _ Hdb).
    specialize (IH (<[params_id req := inc_viewsUsed 1 paste]> db)
                   (inc_viewsUsed 1 paste)).
    replace (Z.to_nat (N - viewsUsed paste))
      with (S (Z.to_nat (N - viewsUsed (inc_viewsUsed 1 paste))))
      by (simpl; lia).
    destruct (run_seq _ (<[_ := _]> db)) as [rs db'] eqn:Hrest.
    unfold successes in *. cbn [fst] in *.
    change (List.filter succeeded (served (inc_viewsUsed 1 paste) :: rs))
      with (served (inc_viewsUsed 1 paste) :: List.filter succeeded rs).
    cbn [length Nat.min]. f_equal.
    apply IH; [apply lookup_insert_eq | done | done | simpl; lia].
Qed.

(* ===================================================================== *)
(** ** Requests in flight together *)
(* ===================================================================== *)

(** Served await after await with nobody in between, a handler ends as
    [run] says. *)
Lemma run_by_steps {A : Type} (p : Async A) (db : Store) :
  exists n : nat,
    run_pool (replicate n 0%nat) [p] db
    = ([Return (response (run p db))], final (run p db)).
Proof.
  revert db. induction p as [a|id k IH|id d k IH|id doc k IH]; intros db.
  - by exists 0%nat.
  - destruct (IH (db !! id) db) as [n Hn]. by exists (S n).
  - destruct (IH (db !! id) (update_inc id d db)) as [n Hn]. by exists (S n).
  - destruct (save_accepts id doc db) eqn:Hok.
    + destruct (IH true (<[id := doc]> db)) as [n Hn]. exists (S n).
      cbn [replicate run_pool]. unfold step_pool. simpl. by rewrite Hok.
    + destruct (IH false db) as [n Hn]. exists (S n).
      cbn [replicate run_pool]. unfold step_pool. simpl. by rewrite Hok.
Qed.

Lemma run_pool_app {A : Type} (s1 s2 : list nat) (pool : Pool A) (db : Store) :
  run_pool (s1 ++ s2)%list pool db
  = run_pool s2 (run_pool s1 pool db).1 (run_pool s1 pool db).2.
Proof.
  revert pool db. induction s1 as [|i s1 IH]; intros pool db; [done|].
  simpl. destruct (step_pool i pool db) as [pool' db']. apply IH.
Qed.

(** One round: requests [i], [i+1], ... are all suspended at [p]; each in
    turn has its call served and moves to [q], the store passing through
    [g i], [g (i+1)], ... *)
Lemma run_pool_round {A : Type} (p q : Async A) (g : nat -> Store)
    (m i : nat) :
  (forall j : nat, (i <= j < i + m)%nat -> step p (g j) = (q, g (S j))) ->
  run_pool (seq i m) (replicate i q ++ replicate m p)%list (g i)
  = (replicate (i + m) q, g (i + m)%nat).
Proof.
  revert i. induction m as [|m IH]; intros i Hstep.
  - simpl. by rewrite app_nil_r, Nat.add_0_r.
  - cbn [seq run_pool replicate]. unfold step_pool.
    assert ((replicate i q ++ p :: replicate m p)%list !! i = Some p) as ->.
    { apply list_lookup_middle. by rewrite length_replicate. }
    rewrite Hstep by lia.
    replace (<[i := q]> (replicate i q ++ p :: replicate m p)%list)
      with (replicate (S i) q ++ replicate m p)%list.
    + rewrite IH by (intros j Hj; apply Hstep; lia).
      by replace (S i + m)%nat with (i + S m)%nat by lia.
    + rewrite replicate_S_end, <- app_assoc. simpl.
      pose proof (insert_app_r (replicate i q) (p :: replicate m p) 0 q) as E.
      rewrite length_replicate, Nat.add_0_r in E. by rewrite E.
Qed.

Lemma with_viewsUsed_same (paste : Paste) :
  with_viewsUsed paste (viewsUsed paste) = paste.
Proof. by destruct paste. Qed.

(** [m] reads of one paste in lock step. Each of them found the paste live
    with room in its budget before any of them incremented, so each of them
    increments and each of them is served: the counter moves by [m]. *)
Lemma lock_step_reads
    (env : Env) (req : Request) (db : Store) (paste : Paste) (m : nat) :
  objectid_regex (params_id req) = true ->
  db !! params_id req = Some paste ->
  is_expired paste (getCurrentTime env (Some req)) = false ->
  limit_reached paste = false ->
  run_pool (lock_step m) (replicate m (pastes_get env req)) db
  = (replicate m
       (Return (served (with_viewsUsed paste (viewsUsed paste + Z.of_nat m)))),
     <[params_id req := with_viewsUsed paste (viewsUsed paste + Z.of_nat m)]>
       db).
Proof.
  intros Hid Hdb Hlive Hroom.
  set (counted := fun j : nat =>
         <[params_id req
           := with_viewsUsed paste (viewsUsed paste + Z.of_nat j)]> db).
  assert (Hcounted : forall j, counted j !! params_id req
            = Some (with_viewsUsed paste (viewsUsed paste + Z.of_nat j))).
  { intros j. apply lookup_insert_eq. }
  assert (H0 : counted 0%nat = db).
  { unfold counted. rewrite Z.add_0_r, with_viewsUsed_same.
    by apply insert_id. }
  unfold lock_step. rewrite !run_pool_app.
  (* first await of each: the lookup *)
  pose proof (run_pool_round (pastes_get env req)
                (after_checks (params_id req)) (fun _ => db) m 0) as R1.
  simpl in R1. rewrite R1; clear R1.
  2:{ intros j _. unfold pastes_get. cbv zeta.
      rewrite Hid. simpl. by rewrite Hdb, Hlive, Hroom. }
  cbn [fst snd].
  (* second await of each: the increment *)
  pose proof (run_pool_round (after_checks (params_id req))
                (after_increment (params_id req)) counted m 0) as R2.
  simpl in R2. rewrite H0 in R2. rewrite R2; clear R2.
  2:{ intros j _. unfold after_checks. simpl. f_equal.
      rewrite (update_inc_insert _ _ _ _ (Hcounted j)). unfold counted.
      rewrite insert_insert_eq. unfold inc_viewsUsed. simpl.
      do 2 f_equal. lia. }
  cbn [fst snd].
  (* third await of each: the lookup of the updated document *)
  pose proof (run_pool_round (after_increment (params_id req))
                (Return (served (with_viewsUsed paste
                                   (viewsUsed paste + Z.of_nat m))))
                (fun _ => counted m) m 0) as R3.
  simpl in R3. rewrite R3; clear R3; [done|].
  intros j _. unfold after_increment. simpl. by rewrite Hcounted.
Qed.

(** The call that moves the counter carries no condition: it moves the
    counter of a paste whose views are used up just the same. *)
Lemma increment_is_unconditional (id : string) (db : Store) (paste : Paste) :
  db !! id = Some paste ->
  limit_reached paste = true ->
  (step (after_checks id) db).2 !! id
  = Some (with_viewsUsed paste (viewsUsed paste + 1)).
Proof. intros Hdb _. simpl. by rewrite update_inc_lookup, Hdb. Qed.

Lemma finished_replicate {A : Type} (m : nat) (a : A) :
  omap finished (replicate m (Return a)) = replicate m a.
Proof. induction m as [|m IH]; [done|]. cbn [replicate]. cbn. by rewrite IH. Qed.

Lemma successes_replicate (m : nat) (r : Response) :
  status r = 200 -> successes (replicate m r) = m.
Proof.
  intros Hr. unfold successes.
  induction m as [|m IH]; [done|]. cbn [replicate List.filter].
  unfold succeeded at 1. rewrite Hr. change (200 =? 200) with true.
  cbn iota. cbn [length]. by rewrite IH.
Qed.

Lemma successes_all_served (m : nat) (r : Response) :
  status r = 200 ->
  successes (omap finished (replicate m (Return r))) = m.
Proof. intros Hr. by rewrite finished_replicate, successes_replicate. Qed.

(** C1 (the code departs from it). The handler tests the budget on the
    document it looked up and then sends an increment that carries no
    condition. With a budget of [N >= 1] views, none used, and [N + 5] reads
    in flight served in lock step, every one of the [N + 5] is answered 200:
    there are [N + 5] successes where the claim allows [N]. *)
Theorem lock_step_readers_all_served
    (env : Env) (req : Request) (db : Store) (paste : Paste) (N : Z) :
  objectid_regex (params_id req) = true ->
  db !! params_id req = Some paste ->
  maxViews paste = Some N ->
  0 < N ->
  viewsUsed paste = 0 ->
  is_expired paste (getCurrentTime env (Some req)) = false ->
  let m := (Z.to_nat N + 5)%nat in
  let outcome :=
    run_pool (lock_step m) (replicate m (pastes_get env req)) db in
  outcome.1
  = replicate m
      (Return (mkResponse 200
                 (JsonPaste (content paste) (Some 0) (expiresAt paste)))) /\
  successes (omap finished outcome.1) = m /\
  (Z.to_nat N < successes (omap finished outcome.1))%nat.
Proof.
  intros Hid Hdb Hmax HN Hused Hlive m outcome.
  assert (Hroom : limit_reached paste = false).
  { unfold limit_reached. rewrite Hmax. lia. }
  assert (Hout : outcome.1
    = replicate m
        (Return (mkResponse 200
                   (JsonPaste (content paste) (Some 0) (expiresAt paste))))).
  { unfold outcome.
    rewrite (lock_step_reads env req db paste m Hid Hdb Hlive Hroom).
    cbn [fst]. do 2 f_equal.
    unfold served, remaining_views_of. simpl. rewrite Hmax. do 3 f_equal.
    destruct (Z.ltb_spec (N - (viewsUsed paste + Z.of_nat m)) 0); lia. }
  rewrite Hout, successes_all_served by done. repeat split. lia.
Qed.

Lemma lock_step_readers_all_served_witness :
  successes
    (omap finished
       (run_pool (lock_step 6)
          (replicate 6 (pastes_get Scenario.test_env
                          (Scenario.get_at "5000" Scenario.id1)))
          {[ Scenario.id1 := Scenario.one_view ]}).1)
  = 6%nat.
Proof.
  refine (proj1 (proj2
    (lock_step_readers_all_served Scenario.test_env
       (Scenario.get_at "5000" Scenario.id1)
       {[ Scenario.id1 := Scenario.one_view ]} Scenario.one_view 1
       _ _ _ _ _ _))); reflexivity.
Defined.

(** C2 (the code departs from it). After the same [N + 5] reads in lock
    step the stored paste has [viewsUsed = N + 5] against [maxViews = N]:
    the state is reached through the read operation alone and breaks
    [viewsUsed <= maxViews]. Handled one at a time, requests keep the bound
    ([sequential_budget_invariant]). *)
Theorem lock_step_readers_exceed_budget
    (env : Env) (req : Request) (db : Store) (paste : Paste) (N : Z) :
  objectid_regex (params_id req) = true ->
  db !! params_id req = Some paste ->
  maxViews paste = Some N ->
  0 < N ->
  viewsUsed paste = 0 ->
  is_expired paste (getCurrentTime env (Some req)) = false ->
  let m := (Z.to_nat N + 5)%nat in
  let outcome :=
    run_pool (lock_step m) (replicate m (pastes_get env req)) db in
  outcome.2 !! params_id req = Some (with_viewsUsed paste (N + 5)) /\
  ~ budget_respected outcome.2.
Proof.
  intros Hid Hdb Hmax HN Hused Hlive m outcome.
  assert (Hroom : limit_reached paste = false).
  { unfold limit_reached. rewrite Hmax. lia. }
  assert (Hout : outcome.2 !! params_id req
                 = Some (with_viewsUsed paste (N + 5))).
  { unfold outcome.
    rewrite (lock_step_reads env req db paste m Hid Hdb Hlive Hroom).
    cbn [snd]. rewrite lookup_insert_eq. do 2 f_equal. lia. }
  split; [exact Hout|]. intros Hinv.
  specialize (Hinv _ _ N Hout Hmax). simpl in Hinv. lia.
Qed.

Lemma lock_step_readers_exceed_budget_witness :
  (run_pool (lock_step 6)
     (replicate 6 (pastes_get Scenario.test_env
                     (Scenario.get_at "5000" Scenario.id1)))
     {[ Scenario.id1 := Scenario.one_view ]}).2
  !! Scenario.id1
  = Some (mkPaste "hello" 1000 None (Some 1) 6).
Proof.
  refine (proj1
    (lock_step_readers_exceed_budget Scenario.test_env
       (Scenario.get_at "5000" Scenario.id1)
       {[ Scenario.id1 := Scenario.one_view ]} Scenario.one_view 1
       _ _ _ _ _ _)); reflexivity.
Defined.

(* ===================================================================== *)
(** ** escapeHtml *)
(* ===================================================================== *)

Lemma list_ascii_of_string_app (a b : string) :
  list_ascii_of_string (a ++ b)
  = (list_ascii_of_string a ++ list_ascii_of_string b)%list.
Proof. induction a as [|c a IH]; simpl; [done | by rewrite IH]. Qed.

Lemma string_app_cons (x : ascii) (a b : string) :
  String x a ++ b = String x (a ++ b).
Proof. reflexivity. Qed.

Lemma string_app_assoc (a b c : string) : (a ++ b) ++ c = a ++ (b ++ c).
Proof.
  induction a as [|x a IH]; [done|]. by rewrite !string_app_cons, IH.
Qed.

Example escapeHtml_script :
  escapeHtml "<script>alert('x')</script>"
  = "&lt;script&gt;alert(&#039;x&#039;)&lt;/script&gt;".
Proof. reflexivity. Qed.

(** What one character becomes. *)
Lemma escaped_char_cases (c : ascii) :
  (if needs_escape c then default "undefined" (entity c)
   else String c EmptyString)
  = (if Ascii.eqb c "&" then "&amp;"
     else if Ascii.eqb c "<" then "&lt;"
     else if Ascii.eqb c ">" then "&gt;"
     else if Ascii.eqb c "034" then "&quot;"
     else if Ascii.eqb c "'" then "&#039;"
     else String c EmptyString).
Proof.
  unfold needs_escape, entity.
  destruct (Ascii.eqb c "&"), (Ascii.eqb c "<"), (Ascii.eqb c ">"),
    (Ascii.eqb c "034"), (Ascii.eqb c "'"); reflexivity.
Qed.

(** X1. The text [escapeHtml] returns contains no less-than, greater-than,
    double quote or apostrophe, whatever text it was given: nothing in it
    can open a tag or close an attribute value. *)
Theorem escapeHtml_leaves_no_markup (text : string) (c : ascii) :
  In c (list_ascii_of_string (escapeHtml text)) -> is_markup c = false.
Proof.
  induction text as [|a text IH]; simpl; [done|].
  rewrite list_ascii_of_string_app, in_app_iff, escaped_char_cases.
  intros [Hhead | Htail]; [|by apply IH].
  unfold is_markup.
  destruct (Ascii.eqb_spec a "&"); [simpl in Hhead; intuition subst; done|].
  destruct (Ascii.eqb_spec a "<"); [simpl in Hhead; intuition subst; done|].
  destruct (Ascii.eqb_spec a ">"); [simpl in Hhead; intuition subst; done|].
  destruct (Ascii.eqb_spec a "034"); [simpl in Hhead; intuition subst; done|].
  destruct (Ascii.eqb_spec a "'"); [simpl in Hhead; intuition subst; done|].
  simpl in Hhead. destruct Hhead as [<- | []].
  destruct (Ascii.eqb_spec a "<"); [done|].
  destruct (Ascii.eqb_spec a ">"); [done|].
  destruct (Ascii.eqb_spec a "034"); [done|].
  destruct (Ascii.eqb_spec a "'"); done.
Qed.

Lemma escapeHtml_leaves_no_markup_witness :
  In "&"%char
     (list_ascii_of_string (escapeHtml "<b onclick='x'>")) /\
  is_markup "&" = false.
Proof.
  assert (H : In "&"%char
                 (list_ascii_of_string (escapeHtml "<b onclick='x'>"))).
  { simpl. by left. }
  exact (conj H (escapeHtml_leaves_no_markup "<b onclick='x'>" "&" H)).
Defined.

(** X2. [escapeHtml] loses nothing: two texts with the same escaped form are
    the same text. *)
Theorem escapeHtml_injective (a b : string) :
  escapeHtml a = escapeHtml b -> a = b.
Proof.
  revert b. induction a as [|x a IH]; intros [|y b]; simpl.
  - done.
  - rewrite escaped_char_cases.
    repeat (destruct (Ascii.eqb y _)); discriminate.
  - rewrite escaped_char_cases.
    repeat (destruct (Ascii.eqb x _)); discriminate.
  - rewrite !escaped_char_cases. intros H.
    assert (Hxy : x = y /\ escapeHtml a = escapeHtml b).
    { destruct (Ascii.eqb_spec x "&") as [->|Hx1];
      [|destruct (Ascii.eqb_spec x "<") as [->|Hx2];
        [|destruct (Ascii.eqb_spec x ">") as [->|Hx3];
          [|destruct (Ascii.eqb_spec x "034") as [->|Hx4];
            [|destruct (Ascii.eqb_spec x "'") as [->|Hx5]]]]];
      (destruct (Ascii.eqb_spec y "&") as [->|Hy1];
       [|destruct (Ascii.eqb_spec y "<") as [->|Hy2];
         [|destruct (Ascii.eqb_spec y ">") as [->|Hy3];
           [|destruct (Ascii.eqb_spec y "034") as [->|Hy4];
             [|destruct (Ascii.eqb_spec y "'") as [->|Hy5]]]]]);
      simpl in H; try discriminate H;
      try (injection H as H; split; [reflexivity | exact H]);
      try (injection H as <- H; split; [reflexivity | exact H]);
      try (injection H as -> H; congruence);
      try (injection H as <- H; congruence). }
    destruct Hxy as [-> Hrest]. f_equal. by apply IH.
Qed.

Lemma escapeHtml_injective_witness :
  escapeHtml "a<b" = escapeHtml "a<b" /\ "a<b" = "a<b".
Proof.
  exact (conj eq_refl (escapeHtml_injective "a<b" "a<b" eq_refl)).
Defined.

(** X3. A text with none of the five special characters is returned as it
    is. *)
Theorem escapeHtml_plain_text_unchanged (text : string) :
  (forall c, In c (list_ascii_of_string text) -> needs_escape c = false) ->
  escapeHtml text = text.
Proof.
  induction text as [|a text IH]; simpl; [done|]. intros Hplain.
  rewrite (Hplain a) by (by left). simpl. f_equal.
  apply IH. intros c Hc. apply Hplain. by right.
Qed.

Lemma escapeHtml_plain_text_unchanged_witness :
  escapeHtml "plain text, no tags" = "plain text, no tags".
Proof.
  apply escapeHtml_plain_text_unchanged.
  intros c Hc. simpl in Hc.
  repeat (destruct Hc as [<- | Hc]; [reflexivity|]). destruct Hc.
Defined.

(** X4. Escaping a text piece by piece gives the same as escaping it
    whole. *)
Theorem escapeHtml_app (a b : string) :
  escapeHtml (a ++ b) = escapeHtml a ++ escapeHtml b.
Proof.
  induction a as [|c a IH]; [done|].
  rewrite string_app_cons. cbn [escapeHtml].
  by rewrite IH, string_app_assoc.
Qed.

(* ===================================================================== *)
(** ** The clock header *)
(* ===================================================================== *)

Lemma parseInt_cases (s : string) :
  JS.parseInt s =
  match JS.skip_white_space s with
  | EmptyString => None
  | String c rest =>
      if Ascii.eqb c "-" then Z.opp <$> JS.digits_prefix rest None
      else if Ascii.eqb c "+" then JS.digits_prefix rest None
      else JS.digits_prefix (String c rest) None
  end.
Proof.
  unfold JS.parseInt. destruct (JS.skip_white_space s) as [|c rest]; [done|].
  destruct c as [[] [] [] [] [] [] [] []]; reflexivity.
Qed.

Lemma digits_prefix_app (u t : string) (acc : option Z) :
  starts_with_digit t = false ->
  JS.digits_prefix (u ++ t) acc = JS.digits_prefix u acc.
Proof.
  intros Ht. revert acc. induction u as [|c u IH]; intros acc.
  - change ("" ++ t) with t. destruct t as [|c t]; [done|]. simpl in *.
    destruct (JS.digit_value c); [|done].
    by apply bool_decide_eq_false in Ht; destruct Ht.
  - rewrite string_app_cons. simpl. destruct (JS.digit_value c); [|done].
    apply IH.
Qed.

Lemma skip_white_space_app (s t : string) :
  JS.skip_white_space s <> "" ->
  JS.skip_white_space (s ++ t) = JS.skip_white_space s ++ t.
Proof.
  induction s as [|c s IH]; [done|]. rewrite string_app_cons. simpl.
  destruct (JS.is_white_space c); [exact IH | done].
Qed.

(** X5. [parseInt(_, 10)] stops at the first character that is not a digit:
    a text that parses to a number parses to the same number when anything
    not starting with a digit is appended, so a clock header followed by
    such text moves the clock exactly as the bare number does. *)
Theorem parseInt_ignores_trailing_text (s t : string) (v : Z) :
  JS.parseInt s = Some v ->
  starts_with_digit t = false ->
  JS.parseInt (s ++ t) = Some v /\
  forall (env : Env) (hs : gmap string string) (id : string) (b : Body),
    getCurrentTime env
      (Some (mkRequest (Some (<["x-test-now-ms" := s ++ t]> hs)) id b))
    = getCurrentTime env
        (Some (mkRequest (Some (<["x-test-now-ms" := s]> hs)) id b)).
Proof.
  intros Hs Ht.
  assert (Hst : JS.parseInt (s ++ t) = Some v).
  { rewrite parseInt_cases in *.
    destruct (JS.skip_white_space s) as [|c rest] eqn:Hskip; [done|].
    rewrite skip_white_space_app by (by rewrite Hskip).
    rewrite Hskip, string_app_cons.
    destruct (Ascii.eqb c "-"); [by rewrite digits_prefix_app|].
    destruct (Ascii.eqb c "+"); [by rewrite digits_prefix_app|].
    by rewrite <- string_app_cons, digits_prefix_app. }
  split; [exact Hst|]. intros env hs id b.
  rewrite !getCurrentTime_cases. simpl.
  by rewrite !lookup_insert_eq, Hs, Hst.
Qed.

Lemma parseInt_ignores_trailing_text_witness :
  JS.parseInt ("60999" ++ ".5 ms") = Some 60999.
Proof.
  exact (proj1 (parseInt_ignores_trailing_text "60999" ".5 ms" 60999
                  eq_refl eq_refl)).
Defined.

(** X6. With a wall clock after the epoch, [getCurrentTime] is positive
    whatever the request carries: an override is taken only if it is
    greater than 0. *)
Theorem clock_stays_positive (env : Env) (req : option Request) :
  0 < Date_now env -> 0 < getCurrentTime env req.
Proof.
  intros Hnow. rewrite getCurrentTime_cases.
  destruct (TEST_MODE env) as [mode|]; [|done].
  destruct (test_now_header req) as [h|]; [|done].
  destruct (String.eqb mode "1"); [|done].
  destruct (JS.parseInt h) as [t|]; [|done].
  by destruct (Z.ltb_spec 0 t).
Qed.

Lemma clock_stays_positive_witness :
  0 < Date_now Scenario.test_env /\
  0 < getCurrentTime Scenario.test_env
        (Some (Scenario.get_at "-5" Scenario.id1)).
Proof.
  exact (conj eq_refl
           (clock_stays_positive Scenario.test_env
              (Some (Scenario.get_at "-5" Scenario.id1)) eq_refl)).
Defined.

(** X7. Unless the process runs with [TEST_MODE=1], the headers of a
    request have no influence on what the three paste handlers do: a client
    cannot move the clock of a production server. *)
Theorem production_ignores_headers
    (env : Env) (h1 h2 : option (gmap string string)) (id : string)
    (b : Body) :
  TEST_MODE env <> Some "1" ->
  pastes_get env (mkRequest h1 id b) = pastes_get env (mkRequest h2 id b) /\
  (forall oid : string,
      pastes_post env oid (mkRequest h1 id b)
      = pastes_post env oid (mkRequest h2 id b)) /\
  (forall (renderPastePage : Paste -> option Z -> string)
          (render404Page render500Page : string),
      view_get renderPastePage render404Page render500Page env
               (mkRequest h1 id b)
      = view_get renderPastePage render404Page render500Page env
                 (mkRequest h2 id b)).
Proof.
  intros Hmode.
  assert (Hclock : forall req, getCurrentTime env req = Date_now env).
  { intros req. rewrite getCurrentTime_cases.
    destruct (TEST_MODE env) as [mode|]; [|done].
    destruct (test_now_header req); [|done].
    destruct (String.eqb_spec mode "1") as [->|]; done. }
  unfold pastes_get, pastes_post, new_paste, view_get. cbv zeta.
  rewrite !Hclock. done.
Qed.

Lemma production_ignores_headers_witness :
  TEST_MODE Scenario.prod_env <> Some "1" /\
  pastes_get Scenario.prod_env
    (mkRequest (Some {[ "x-test-now-ms" := "1" ]}) Scenario.id1
               Scenario.no_body)
  = pastes_get Scenario.prod_env
      (mkRequest None Scenario.id1 Scenario.no_body).
Proof.
  assert (H : TEST_MODE Scenario.prod_env <> Some "1") by discriminate.
  exact (conj H (proj1 (production_ignores_headers Scenario.prod_env
                          (Some {[ "x-test-now-ms" := "1" ]}) None
                          Scenario.id1 Scenario.no_body H))).
Defined.

(* ===================================================================== *)
(** ** Creating, then reading *)
(* ===================================================================== *)

(** X8. Creating a paste never touches a paste that is already stored, not
    even when the drawn identifier is taken: in that case, and when the
    content is empty, the handler answers 500 and the collection is what it
    was. *)
Theorem create_never_overwrites
    (env : Env) (oid : string) (req : Request) (db : Store) :
  (forall (j : string) (paste : Paste),
      db !! j = Some paste ->
      final (run (pastes_post env oid req) db) !! j = Some paste) /\
  (is_Some (db !! oid) \/ body_content (body req) = "" ->
   response (run (pastes_post env oid req) db) = serverErrorJson /\
   final (run (pastes_post env oid req) db) = db).
Proof.
  split.
  - intros j paste Hj.
    destruct (run_pastes_post env oid req db)
      as [_ [(_ & Hfresh & ->) | [_ ->]]]; [|done].
    rewrite lookup_insert_ne; [done|]. intros ->. congruence.
  - intros Hbad. unfold pastes_post. cbv zeta. simpl.
    assert (Hrefused : save_accepts oid (new_paste env req) db = false).
    { unfold save_accepts, schema_valid, new_paste. simpl.
      destruct Hbad as [[paste Hpaste] | ->]; [|done].
      rewrite bool_decide_eq_false_2 by congruence. apply andb_false_r. }
    by rewrite Hrefused.
Qed.

Lemma create_never_overwrites_witness :
  final (run (pastes_post Scenario.test_env Scenario.id1
                (Scenario.post_at "2000"
                   (mkBody "other" JS.Undefined JS.Undefined)))
             {[ Scenario.id1 := Scenario.last_view ]})
  !! Scenario.id1 = Some Scenario.last_view.
Proof.
  exact (proj1 (create_never_overwrites Scenario.test_env Scenario.id1
                  (Scenario.post_at "2000"
                     (mkBody "other" JS.Undefined JS.Undefined))
                  {[ Scenario.id1 := Scenario.last_view ]})
               Scenario.id1 Scenario.last_view eq_refl).
Defined.

(** X9. A paste built from a body that passes the numeric validation rules
    is alive when it is created: no view is used, a budget if any is at
    least 1, and an expiry if any lies at least one second after the
    creation instant. *)
Theorem admitted_paste_is_born_alive (env : Env) (req : Request) :
  valid_ttl_seconds (body req) = true ->
  valid_max_views (body req) = true ->
  viewsUsed (new_paste env req) = 0 /\
  (forall m, maxViews (new_paste env req) = Some m -> 1 <= m) /\
  (forall t, expiresAt (new_paste env req) = Some t ->
             createdAt (new_paste env req) + 1000 <= t) /\
  is_expired (new_paste env req) (createdAt (new_paste env req)) = false /\
  limit_reached (new_paste env req) = false.
Proof.
  unfold valid_ttl_seconds, valid_max_views, is_expired, limit_reached,
    new_paste, JS.or.
  destruct (ttl_seconds (body req)) as [| |ttl],
           (max_views (body req)) as [| |mv]; simpl; try discriminate;
    intros Httl Hmv; repeat split; try discriminate; try done;
    try (destruct (Z.eqb_spec ttl 0); simpl; [lia|]);
    try (destruct (Z.eqb_spec mv 0); simpl; [lia|]);
    try (intros ? [= <-]; lia); try lia.
Qed.

Lemma admitted_paste_is_born_alive_witness :
  limit_reached
    (new_paste Scenario.test_env
       (Scenario.post_at "1000" (mkBody "hello" (JS.Num 60) (JS.Num 1))))
  = false.
Proof.
  exact (proj2 (proj2 (proj2 (proj2
    (admitted_paste_is_born_alive Scenario.test_env
       (Scenario.post_at "1000" (mkBody "hello" (JS.Num 60) (JS.Num 1)))
       eq_refl eq_refl))))).
Defined.

(** X10. A [ttl_seconds] that is absent, [null] or 0 gives a paste that no
    clock ever finds expired. *)
Theorem falsy_ttl_never_expires (env : Env) (req : Request) (now : Z) :
  JS.truthy (ttl_seconds (body req)) = false ->
  expiresAt (new_paste env req) = None /\
  is_expired (new_paste env req) now = false.
Proof.
  intros Hfalsy. unfold is_expired, new_paste. simpl. by rewrite Hfalsy.
Qed.

Lemma falsy_ttl_never_expires_witness :
  is_expired
    (new_paste Scenario.test_env
       (Scenario.post_at "1000" (mkBody "hello" (JS.Num 0) JS.Undefined)))
    99999999999999
  = false.
Proof.
  exact (proj2 (falsy_ttl_never_expires Scenario.test_env
                  (Scenario.post_at "1000"
                     (mkBody "hello" (JS.Num 0) JS.Undefined))
                  99999999999999 eq_refl)).
Defined.

(* ===================================================================== *)
(** ** The two read routes, one request at a time *)
(* ===================================================================== *)

Lemma run_seq_cons {A : Type} (p : Async A) (ps : list (Async A))
    (db : Store) :
  (run_seq (p :: ps) db).1
  = response (run p db) :: (run_seq ps (final (run p db))).1.
Proof. simpl. by destruct (run_seq ps (final (run p db))). Qed.

Lemma successes_cons (r : Response) (rs : list Response) :
  successes (r :: rs)
  = ((if (status r =? 200)%Z then 1 else 0) + successes rs)%nat.
Proof.
  unfold successes. cbn [List.filter]. unfold succeeded at 1.
  by destruct (status r =? 200).
Qed.

Lemma run_read_via
    (renderPastePage : Paste -> option Z -> string)
    (render404Page render500Page : string)
    (env : Env) (req : Request) (html : bool) (db : Store) :
  let r := run (read_via renderPastePage render404Page render500Page
                         env req html) db in
  final r = final (run (pastes_get env req) db) /\
  status (response r) = status (response (run (pastes_get env req) db)).
Proof.
  destruct html; cbn [read_via]; [|done].
  destruct (view_get_mirrors_pastes_get renderPastePage render404Page
              render500Page env req db) as (Hfinal & _ & Hstatus).
  done.
Qed.

(** X12. The HTML route and the JSON route draw on the same budget: of any
    sequence of reads of one paste, through either route in any order,
    handled one at a time while the paste does not expire, exactly the first
    [maxViews - viewsUsed] are answered 200. *)
Theorem routes_share_one_budget
    (renderPastePage : Paste -> option Z -> string)
    (render404Page render500Page : string)
    (env : Env) (req : Request) (routes : list bool) (db : Store)
    (paste : Paste) (N : Z) :
  objectid_regex (params_id req) = true ->
  db !! params_id req = Some paste ->
  maxViews paste = Some N ->
  is_expired paste (getCurrentTime env (Some req)) = false ->
  viewsUsed paste <= N ->
  successes
    (run_seq (read_via renderPastePage render404Page render500Page env req
              <$> routes) db).1
  = Nat.min (length routes) (Z.to_nat (N - viewsUsed paste)).
Proof.
  intros Hid. revert db paste.
  induction routes as [|html routes IH]; intros db paste Hdb Hmax Hlive Hle;
    [done|].
  rewrite fmap_cons, run_seq_cons, successes_cons.
  destruct (run_read_via renderPastePage render404Page render500Page
              env req html db) as [-> ->].
  rewrite run_pastes_get. cbv zeta.
  rewrite Hid, Hdb, Hlive. unfold limit_reached. rewrite Hmax. cbn [orb].
  destruct (Z.leb_spec N (viewsUsed paste)) as [Hfull|Hroom];
    cbn [final response status notFoundJson served].
  - rewrite (IH db paste Hdb Hmax Hlive Hle).
    replace (Z.to_nat (N - viewsUsed paste)) with 0%nat by lia.
    change (404 =? 200) with false. cbn iota. by rewrite !Nat.min_0_r.
  - rewrite (update_inc_insert _ _ _ _ Hdb).
    rewrite (IH _ (inc_viewsUsed 1 paste));
      [|apply lookup_insert_eq | done | done | simpl; lia].
    change (200 =? 200) with true. cbn iota. cbn [length].
    replace (Z.to_nat (N - viewsUsed paste))
      with (S (Z.to_nat (N - viewsUsed (inc_viewsUsed 1 paste))))
      by (simpl; lia).
    reflexivity.
Qed.

Lemma routes_share_one_budget_witness :
  successes
    (run_seq (read_via (fun _ _ => "page") "gone" "broken" Scenario.test_env
                (Scenario.get_at "5000" Scenario.id1)
              <$> [true; false; true; false])
             {[ Scenario.id1 := Scenario.last_view ]}).1
  = 1%nat.
Proof.
  refine (routes_share_one_budget (fun _ _ => "page") "gone" "broken"
            Scenario.test_env (Scenario.get_at "5000" Scenario.id1)
            [true; false; true; false]
            {[ Scenario.id1 := Scenario.last_view ]} Scenario.last_view 3
            _ _ _ _ _); first [reflexivity | vm_compute; discriminate].
Defined.

(** X13. Whatever requests to the three paste routes were handled, one at a
    time, since the collection was empty, every stored paste with a budget
    has used between 0 and [maxViews] views. *)
Theorem any_history_keeps_budget
    (renderPastePage : Paste -> option Z -> string)
    (render404Page render500Page : string)
    (history : list Invocation) :
  budget_respected
    (foldl (handle renderPastePage render404Page render500Page) ∅ history).
Proof.
  assert (Hgen : forall db, budget_respected db ->
            budget_respected
              (foldl (handle renderPastePage render404Page render500Page)
                     db history)).
  { induction history as [|inv history IH]; intros db Hinv; [done|].
    cbn [foldl]. apply IH. unfold handle.
    destruct inv as [env oid req | env req | env req];
      cbn [admitted start].
    - destruct (valid_ttl_seconds _); [|done]. cbn [andb].
      destruct (valid_max_views _) eqn:Hv; [|done].
      by apply pastes_post_keeps_budget.
    - by apply pastes_get_keeps_budget.
    - destruct (view_get_mirrors_pastes_get renderPastePage render404Page
                  render500Page env req db) as (-> & _).
      by apply pastes_get_keeps_budget. }
  apply Hgen. intros j q m Hq. by rewrite lookup_empty in Hq.
Qed.

(* ===================================================================== *)
(** ** What holds under every interleaving *)
(* ===================================================================== *)

Lemma with_viewsUsed_twice (paste : Paste) (n m : Z) :
  with_viewsUsed (with_viewsUsed paste n) m = with_viewsUsed paste m.
Proof. reflexivity. Qed.

(** No call there is removes a document or writes a field other than
    [viewsUsed]. *)
Lemma step_keeps_pastes {A : Type} (p : Async A) (db : Store) (id : string)
    (paste : Paste) :
  db !! id = Some paste ->
  exists n : Z,
    (step p db).2 !! id = Some (with_viewsUsed paste n) /\
    (counts_up p -> viewsUsed paste <= n).
Proof.
  intros Hdb.
  assert (Hsame : exists n : Z,
             db !! id = Some (with_viewsUsed paste n) /\
             (counts_up p -> viewsUsed paste <= n)).
  { exists (viewsUsed paste). by rewrite with_viewsUsed_same. }
  destruct p as [a | id' k | id' d k | id' doc k]; simpl; try exact Hsame.
  - destruct (decide (id' = id)) as [->|Hne].
    + exists (viewsUsed paste + d). rewrite update_inc_lookup, Hdb.
      split; [done|]. intros Hup. inversion Hup. lia.
    + by rewrite update_inc_lookup_ne.
  - destruct (save_accepts id' doc db) eqn:Hok; simpl; [|exact Hsame].
    unfold save_accepts in Hok. apply andb_true_iff in Hok as [_ Hfresh].
    apply bool_decide_eq_true in Hfresh.
    rewrite lookup_insert_ne by congruence. exact Hsame.
Qed.

Lemma step_counts_up {A : Type} (p : Async A) (db : Store) :
  counts_up p -> counts_up (step p db).1.
Proof.
  destruct 1; simpl; auto using @counts_up.
  destruct (save_accepts id doc db); simpl; auto.
Qed.

Lemma run_pool_keeps_pastes {A : Type} (schedule : list nat) (pool : Pool A)
    (db : Store) (id : string) (paste : Paste) :
  db !! id = Some paste ->
  exists n : Z,
    (run_pool schedule pool db).2 !! id = Some (with_viewsUsed paste n) /\
    (Forall counts_up pool -> viewsUsed paste <= n).
Proof.
  revert pool db paste.
  induction schedule as [|i schedule IH]; intros pool db paste Hdb.
  - exists (viewsUsed paste). by rewrite with_viewsUsed_same.
  - cbn [run_pool]. unfold step_pool.
    destruct (pool !! i) as [p|] eqn:Hp; [|by apply IH].
    destruct (step p db) as [p' db'] eqn:Hstep.
    destruct (step_keeps_pastes p db id paste Hdb) as (n1 & Hn1 & Hup1).
    rewrite Hstep in Hn1. cbn [snd] in Hn1.
    destruct (IH (<[i := p']> pool) db' _ Hn1) as (n & Hn & Hup).
    exists n. split; [exact Hn|]. intros Hall.
    assert (Hcp : counts_up p).
    { eapply Forall_lookup_1; eauto. }
    assert (Hcp' : counts_up p').
    { pose proof (step_counts_up p db Hcp) as H. by rewrite Hstep in H. }
    specialize (Hup1 Hcp). simpl in Hup. etrans; [exact Hup1|].
    apply Hup. by apply Forall_insert.
Qed.

Lemma start_counts_up
    (renderPastePage : Paste -> option Z -> string)
    (render404Page render500Page : string) (inv : Invocation) :
  counts_up (start renderPastePage render404Page render500Page inv).
Proof.
  destruct inv as [env oid req | env req | env req]; cbn [start].
  - unfold pastes_post. cbv zeta. constructor. intros []; constructor.
  - unfold pastes_get. cbv zeta. destruct (negb _); constructor.
    intros [paste|]; [|constructor].
    destruct (is_expired paste _); [constructor|].
    destruct (limit_reached paste); constructor; [lia|].
    intros _. constructor. intros [updatedPaste|]; constructor.
  - unfold view_get. cbv zeta. destruct (negb _); constructor.
    intros [paste|]; [|constructor].
    destruct (is_expired paste _); [constructor|].
    destruct (limit_reached paste); constructor; [lia|].
    intros _. constructor. intros [updatedPaste|]; constructor.
Qed.

(** X14. Whatever requests to the three paste routes are in flight and
    however their awaits interleave, a stored paste stays stored with the
    content, creation instant, expiry and budget it has, and its
    [viewsUsed] never goes down. *)
Theorem no_interleaving_rewrites_a_paste
    (renderPastePage : Paste -> option Z -> string)
    (render404Page render500Page : string)
    (requests : list Invocation) (schedule : list nat) (db : Store)
    (id : string) (paste : Paste) :
  db !! id = Some paste ->
  exists n : Z,
    viewsUsed paste <= n /\
    (run_pool schedule
       (start renderPastePage render404Page render500Page <$> requests)
       db).2 !! id
    = Some (with_viewsUsed paste n).
Proof.
  intros Hdb.
  destruct (run_pool_keeps_pastes schedule
              (start renderPastePage render404Page render500Page
               <$> requests) db id paste Hdb) as (n & Hn & Hup).
  exists n. split; [|exact Hn]. apply Hup.
  apply Forall_fmap, Forall_forall. intros inv _. apply start_counts_up.
Qed.

Lemma no_interleaving_rewrites_a_paste_witness :
  exists n : Z,
    viewsUsed Scenario.one_view <= n /\
    (run_pool [0; 1; 2; 1; 0; 2; 1; 1]%nat
       (start (fun _ _ => "page") "gone" "broken"
        <$> [GetPaste Scenario.test_env (Scenario.get_at "5" Scenario.id1);
             ViewPaste Scenario.test_env (Scenario.get_at "6" Scenario.id1);
             PostPaste Scenario.test_env Scenario.id1
               (Scenario.post_at "7"
                  (mkBody "other" JS.Undefined JS.Undefined))])
       {[ Scenario.id1 := Scenario.one_view ]}).2 !! Scenario.id1
    = Some (with_viewsUsed Scenario.one_view n).
Proof.
  exact (no_interleaving_rewrites_a_paste (fun _ _ => "page") "gone" "broken"
           _ _ {[ Scenario.id1 := Scenario.one_view ]} Scenario.id1
           Scenario.one_view eq_refl).
Defined.

Lemma is_expired_with_viewsUsed (paste : Paste) (n now : Z) :
  is_expired (with_viewsUsed paste n) now = is_expired paste now.
Proof. reflexivity. Qed.

(** X15. The time bound holds under every interleaving: a JSON read whose
    clock is at or after the expiry of the paste it asks for is never
    answered anything but the 404, whatever other requests are in flight
    and however the awaits are scheduled. *)
Theorem expired_paste_is_never_served
    (pool : Pool Response) (schedule : list nat) (db : Store) (i : nat)
    (env : Env) (req : Request) (paste : Paste) (r : Response) :
  pool !! i = Some (pastes_get env req) ->
  db !! params_id req = Some paste ->
  is_expired paste (getCurrentTime env (Some req)) = true ->
  (run_pool schedule pool db).1 !! i = Some (Return r) ->
  r = notFoundJson.
Proof.
  intros Hpool Hdb Hdead Hend.
  assert (Hinv : forall sched (pl : Pool Response) (d : Store) (q : Paste),
    pl !! i = Some (pastes_get env req)
    \/ pl !! i = Some (Return notFoundJson) ->
    d !! params_id req = Some q ->
    is_expired q (getCurrentTime env (Some req)) = true ->
    (run_pool sched pl d).1 !! i = Some (pastes_get env req)
    \/ (run_pool sched pl d).1 !! i = Some (Return notFoundJson)).
  { induction sched as [|j sched IH]; intros pl d q Hi Hd Hq; [done|].
    cbn [run_pool]. unfold step_pool.
    destruct (pl !! j) as [p|] eqn:Hp; [|by eapply IH].
    destruct (step p d) as [p' d'] eqn:Hstep.
    destruct (step_keeps_pastes p d _ q Hd) as (n & Hn & _).
    rewrite Hstep in Hn. cbn [snd] in Hn.
    eapply IH; [|exact Hn|by rewrite is_expired_with_viewsUsed].
    destruct (decide (j = i)) as [->|Hne].
    - right. rewrite list_lookup_insert_eq by (by eapply lookup_lt_Some).
      f_equal.
      assert (Hp' : (step p d).1 = Return notFoundJson);
        [|by rewrite Hstep in Hp'].
      destruct Hi as [Hi | Hi]; rewrite Hi in Hp; injection Hp as <-;
        [|done].
      unfold pastes_get. cbv zeta.
      destruct (objectid_regex (params_id req)); simpl; [|done].
      by rewrite Hd, Hq.
    - by rewrite list_lookup_insert_ne. }
  destruct (Hinv schedule pool db paste (or_introl Hpool) Hdb Hdead)
    as [Hstill | Hgone]; rewrite Hend in *.
  - injection Hstill as Hstill. unfold pastes_get in Hstill.
    cbv zeta in Hstill.
    destruct (objectid_regex (params_id req)); simpl in Hstill;
      [discriminate | by injection Hstill].
  - by injection Hgone.
Qed.

Lemma expired_paste_is_never_served_witness :
  (run_pool [0; 1; 1; 0; 1]%nat
     [pastes_get Scenario.test_env (Scenario.get_at "61000" Scenario.id1);
      pastes_get Scenario.test_env (Scenario.get_at "60999" Scenario.id1)]
     {[ Scenario.id1 := Scenario.one_minute ]}).1 !! 0%nat
  = Some (Return notFoundJson) /\
  notFoundJson = notFoundJson.
Proof.
  assert (H : (run_pool [0; 1; 1; 0; 1]%nat
     [pastes_get Scenario.test_env (Scenario.get_at "61000" Scenario.id1);
      pastes_get Scenario.test_env (Scenario.get_at "60999" Scenario.id1)]
     {[ Scenario.id1 := Scenario.one_minute ]}).1 !! 0%nat
     = Some (Return notFoundJson)) by reflexivity.
  exact (conj H
    (expired_paste_is_never_served
       [pastes_get Scenario.test_env (Scenario.get_at "61000" Scenario.id1);
        pastes_get Scenario.test_env (Scenario.get_at "60999" Scenario.id1)]
       [0; 1; 1; 0; 1]%nat {[ Scenario.id1 := Scenario.one_minute ]}
       0%nat Scenario.test_env
       (Scenario.get_at "61000" Scenario.id1) Scenario.one_minute
       notFoundJson eq_refl eq_refl eq_refl H)).
Defined.

Lemma total_insert (cs : list Z) (i : nat) (c c' : Z) :
  cs !! i = Some c -> total (<[i := c']> cs) = total cs - c + c'.
Proof.
  revert i. induction cs as [|x cs IH]; intros [|i] Hi; simpl in *;
    try discriminate.
  - injection Hi as ->. unfold total. simpl. lia.
  - unfold total in *. simpl. rewrite (IH i Hi). lia.
Qed.

(** One await of a read of [id], the paste being stored: the read moves to
    its next stage and the counter moves by what the read newly added. *)
Lemma read_stage_step (id : string) (p : Async Response) (c : Z)
    (db : Store) (q : Paste) :
  read_stage id p c ->
  db !! id = Some q ->
  exists c' : Z,
    read_stage id (step p db).1 c' /\
    (step p db).2 !! id = Some (with_viewsUsed q (viewsUsed q + (c' - c))).
Proof.
  intros Hstage Hdb.
  assert (Hsame : forall n, Some q
                    = Some (with_viewsUsed q (viewsUsed q + (n - n)))).
  { intros n. by rewrite Z.sub_diag, Z.add_0_r, with_viewsUsed_same. }
  destruct Hstage as [env req <- | | | | u].
  - unfold pastes_get. cbv zeta.
    destruct (objectid_regex (params_id req)); simpl.
    + rewrite Hdb.
      destruct (is_expired q _);
        [exists 0; split; [apply read_stage_refused | apply (Hsame 0)]|].
      destruct (limit_reached q); exists 0; split;
        [apply read_stage_refused | apply (Hsame 0)
        | apply read_stage_checked | apply (Hsame 0)].
    + exists 0. split; [apply read_stage_refused|].
      rewrite Hdb. apply (Hsame 0).
  - exists 1. simpl. split; [apply read_stage_incremented|].
    by rewrite update_inc_lookup, Hdb.
  - exists 1. simpl. rewrite Hdb. split; [apply read_stage_served|].
    apply (Hsame 1).
  - exists 0. simpl. split; [apply read_stage_refused|].
    rewrite Hdb. apply (Hsame 0).
  - exists 1. simpl. split; [apply read_stage_served|].
    rewrite Hdb. apply (Hsame 1).
Qed.

Lemma run_pool_read_stages (id : string) (schedule : list nat)
    (pool : Pool Response) (cs : list Z) (db : Store) (q : Paste) :
  Forall2 (read_stage id) pool cs ->
  db !! id = Some q ->
  exists cs' : list Z,
    Forall2 (read_stage id) (run_pool schedule pool db).1 cs' /\
    (run_pool schedule pool db).2 !! id
    = Some (with_viewsUsed q (viewsUsed q + (total cs' - total cs))).
Proof.
  revert pool cs db q.
  induction schedule as [|i schedule IH]; intros pool cs db q Hstages Hdb.
  - exists cs. split; [done|].
    by rewrite Z.sub_diag, Z.add_0_r, with_viewsUsed_same.
  - cbn [run_pool]. unfold step_pool.
    destruct (pool !! i) as [p|] eqn:Hp; [|by apply IH].
    destruct (Forall2_lookup_l _ _ _ _ _ Hstages Hp) as (c & Hc & Hpc).
    destruct (read_stage_step id p c db q Hpc Hdb) as (c' & Hstage' & Hdb').
    destruct (step p db) as [p' db'] eqn:Hstep. cbn [fst snd] in *.
    destruct (IH (<[i := p']> pool) (<[i := c']> cs) db' _
                 (Forall2_insert _ _ _ _ _ _ Hstages Hstage') Hdb')
      as (cs' & Hcs' & Hfinal).
    exists cs'. split; [exact Hcs'|]. rewrite Hfinal.
    rewrite (total_insert cs i c c' Hc). cbn [with_viewsUsed viewsUsed].
    unfold with_viewsUsed. simpl. do 2 f_equal. lia.
Qed.

Lemma read_stage_finished (id : string) (r : Response) (c : Z) :
  read_stage id (Return r) c ->
  (c = 0 /\ r = notFoundJson) \/ (c = 1 /\ exists u, r = served u).
Proof.
  intros H. remember (Return r) as p eqn:Hp.
  destruct H as [env req _ | | | | u].
  - unfold pastes_get in Hp. cbv zeta in Hp.
    destruct (objectid_regex (params_id req)); simpl in Hp;
      [discriminate | injection Hp as <-; by left].
  - discriminate.
  - discriminate.
  - injection Hp as <-. by left.
  - injection Hp as <-. right. eauto.
Qed.

Lemma total_of_finished (id : string) (pool : Pool Response) (cs : list Z) :
  Forall2 (read_stage id) pool cs ->
  Forall (fun p => is_Some (finished p)) pool ->
  total cs = Z.of_nat (successes (omap finished pool)).
Proof.
  induction 1 as [|p c pool cs Hp Hrest IH]; intros Hall; [done|].
  apply Forall_cons in Hall as [[r Hr] Hall].
  destruct p as [a| | |]; try discriminate. injection Hr as ->.
  change (omap finished (Return r :: pool)) with (r :: omap finished pool).
  rewrite successes_cons.
  specialize (IH Hall). unfold total in *. cbn [foldr]. rewrite IH.
  destruct (read_stage_finished id r c Hp) as [[-> ->] | [-> [u ->]]];
    simpl; lia.
Qed.

Lemma reads_start_at_stage_0 (id : string) (reads : list (Env * Request)) :
  Forall (fun er => params_id er.2 = id) reads ->
  Forall2 (read_stage id) ((fun er => pastes_get er.1 er.2) <$> reads)
          (replicate (length reads) 0) /\
  total (replicate (length reads) 0) = 0.
Proof.
  induction 1 as [|[env req] reads Hid Hall [IH1 IH2]]; [done|].
  split; [|exact IH2]. cbn. constructor; [by constructor | exact IH1].
Qed.

(** X16. The increment loses no view and counts none twice: however the
    awaits of any number of JSON reads of one stored paste interleave, once
    all of them have responded the stored [viewsUsed] has grown by exactly
    the number of 200 responses. *)
Theorem every_served_read_is_counted
    (reads : list (Env * Request)) (schedule : list nat) (db : Store)
    (id : string) (paste : Paste) :
  Forall (fun er => params_id er.2 = id) reads ->
  db !! id = Some paste ->
  let outcome :=
    run_pool schedule ((fun er => pastes_get er.1 er.2) <$> reads) db in
  Forall (fun p => is_Some (finished p)) outcome.1 ->
  outcome.2 !! id
  = Some (with_viewsUsed paste
            (viewsUsed paste
             + Z.of_nat (successes (omap finished outcome.1)))).
Proof.
  intros Hids Hdb outcome Hdone.
  destruct (reads_start_at_stage_0 id reads Hids) as [Hstart Hzero].
  destruct (run_pool_read_stages id schedule _ _ db paste Hstart Hdb)
    as (cs & Hcs & Hfinal).
  fold outcome in Hcs, Hfinal. rewrite Hfinal, Hzero, Z.sub_0_r.
  by rewrite (total_of_finished id _ _ Hcs Hdone).
Qed.

Lemma every_served_read_is_counted_witness :
  (run_pool [0; 1; 0; 1; 0; 1; 2]%nat
     ((fun er => pastes_get er.1 er.2)
      <$> [(Scenario.test_env, Scenario.get_at "5" Scenario.id1);
           (Scenario.test_env, Scenario.get_at "6" Scenario.id1);
           (Scenario.test_env, Scenario.get_at "7" Scenario.id1)])
     {[ Scenario.id1 := Scenario.one_view ]}).2 !! Scenario.id1
  = Some (with_viewsUsed Scenario.one_view 2).
Proof.
  refine (every_served_read_is_counted
            [(Scenario.test_env, Scenario.get_at "5" Scenario.id1);
             (Scenario.test_env, Scenario.get_at "6" Scenario.id1);
             (Scenario.test_env, Scenario.get_at "7" Scenario.id1)]
            [0; 1; 0; 1; 0; 1; 2]%nat
            {[ Scenario.id1 := Scenario.one_view ]} Scenario.id1
            Scenario.one_view _ eq_refl _).
  - repeat constructor.
  - vm_compute. repeat constructor; eexists; reflexivity.
Defined.

(** X17. As long as the store answers its calls, a JSON read of a stored
    paste is answered with the 404 or with a 200, under every interleaving
    with other such reads: the refetch after the increment always finds the
    document, so the handler's 500 is never sent. *)
Theorem stored_paste_read_never_fails
    (reads : list (Env * Request)) (schedule : list nat) (db : Store)
    (id : string) (paste : Paste) (i : nat) (r : Response) :
  Forall (fun er => params_id er.2 = id) reads ->
  db !! id = Some paste ->
  (run_pool schedule ((fun er => pastes_get er.1 er.2) <$> reads) db).1 !! i
  = Some (Return r) ->
  r = notFoundJson \/ exists updatedPaste, r = served updatedPaste.
Proof.
  intros Hids Hdb Hend.
  destruct (reads_start_at_stage_0 id reads Hids) as [Hstart _].
  destruct (run_pool_read_stages id schedule _ _ db paste Hstart Hdb)
    as (cs & Hcs & _).
  destruct (Forall2_lookup_l _ _ _ _ _ Hcs Hend) as (c & _ & Hstage).
  destruct (read_stage_finished id r c Hstage) as [[_ ->] | [_ Hu]]; eauto.
Qed.

Lemma stored_paste_read_never_fails_witness :
  (run_pool [0; 1; 0; 1; 0; 1]%nat
     ((fun er => pastes_get er.1 er.2)
      <$> [(Scenario.test_env, Scenario.get_at "5" Scenario.id1);
           (Scenario.test_env, Scenario.get_at "6" Scenario.id1)])
     {[ Scenario.id1 := Scenario.one_view ]}).1 !! 1%nat
  = Some (Return (served (with_viewsUsed Scenario.one_view 2))) /\
  (served (with_viewsUsed Scenario.one_view 2) = notFoundJson \/
   exists updatedPaste,
     served (with_viewsUsed Scenario.one_view 2) = served updatedPaste).
Proof.
  assert (H : (run_pool [0; 1; 0; 1; 0; 1]%nat
     ((fun er => pastes_get er.1 er.2)
      <$> [(Scenario.test_env, Scenario.get_at "5" Scenario.id1);
           (Scenario.test_env, Scenario.get_at "6" Scenario.id1)])
     {[ Scenario.id1 := Scenario.one_view ]}).1 !! 1%nat
     = Some (Return (served (with_viewsUsed Scenario.one_view 2))))
    by reflexivity.
  refine (conj H
    (stored_paste_read_never_fails
       [(Scenario.test_env, Scenario.get_at "5" Scenario.id1);
        (Scenario.test_env, Scenario.get_at "6" Scenario.id1)]
       [0; 1; 0; 1; 0; 1]%nat {[ Scenario.id1 := Scenario.one_view ]}
       Scenario.id1 Scenario.one_view 1%nat _ _ eq_refl H)).
  repeat constructor.
Defined.

(* ===================================================================== *)
(** ** Dead pastes stay dead *)
(* ===================================================================== *)

Lemma run_keeps_pastes {A : Type} (p : Async A) (db : Store) (id : string)
    (paste : Paste) :
  counts_up p ->
  db !! id = Some paste ->
  exists n : Z,
    viewsUsed paste <= n /\
    final (run p db) !! id = Some (with_viewsUsed paste n).
Proof.
  intros Hup. revert db paste.
  induction Hup as [a | id' k _ IH | id' d k Hd _ IH | id' doc k _ IH];
    intros db paste Hdb; cbn [run final].
  - exists (viewsUsed paste). by rewrite with_viewsUsed_same.
  - by apply IH.
  - destruct (decide (id' = id)) as [->|Hne].
    + destruct (IH (db !! id) (update_inc id d db)
                   (with_viewsUsed paste (viewsUsed paste + d)))
        as (n & Hn & Hfinal).
      { by rewrite update_inc_lookup, Hdb. }
      exists n. simpl in Hn. split; [lia | exact Hfinal].
    + apply IH. by rewrite update_inc_lookup_ne.
  - destruct (save_accepts id' doc db) eqn:Hok; [|by apply IH].
    apply IH. unfold save_accepts in Hok.
    apply andb_true_iff in Hok as [_ Hfresh].
    apply bool_decide_eq_true in Hfresh.
    rewrite lookup_insert_ne by congruence. exact Hdb.
Qed.

Lemma history_keeps_pastes
    (renderPastePage : Paste -> option Z -> string)
    (render404Page render500Page : string)
    (history : list Invocation) (db : Store) (id : string) (paste : Paste) :
  db !! id = Some paste ->
  exists n : Z,
    viewsUsed paste <= n /\
    foldl (handle renderPastePage render404Page render500Page) db history
    !! id = Some (with_viewsUsed paste n).
Proof.
  revert db paste.
  induction history as [|inv history IH]; intros db paste Hdb.
  - exists (viewsUsed paste). by rewrite with_viewsUsed_same.
  - cbn [foldl].
    assert (Hone : exists n1, viewsUsed paste <= n1 /\
              handle renderPastePage render404Page render500Page db inv
              !! id = Some (with_viewsUsed paste n1)).
    { unfold handle. destruct (admitted inv).
      - apply run_keeps_pastes; [apply start_counts_up | done].
      - exists (viewsUsed paste). by rewrite with_viewsUsed_same. }
    destruct Hone as (n1 & Hn1 & Hdb1).
    destruct (IH _ _ Hdb1) as (n & Hn & Hfinal).
    exists n. simpl in Hn. split; [lia | exact Hfinal].
Qed.

(** X18. No resurrection. Once a read of a stored paste has been refused,
    because the paste had expired or had used up its views, every later read
    of it whose clock is not earlier is refused as well, whatever requests
    to the three paste routes were handled in between. *)
Theorem dead_paste_stays_dead
    (renderPastePage : Paste -> option Z -> string)
    (render404Page render500Page : string)
    (env env' : Env) (req req' : Request) (db : Store) (paste : Paste)
    (history : list Invocation) :
  db !! params_id req = Some paste ->
  response (run (pastes_get env req) db) = notFoundJson ->
  params_id req' = params_id req ->
  getCurrentTime env (Some req) <= getCurrentTime env' (Some req') ->
  response
    (run (pastes_get env' req')
         (foldl (handle renderPastePage render404Page render500Page)
                db history))
  = notFoundJson.
Proof.
  intros Hdb Hrefused Hid Hclock.
  destruct (history_keeps_pastes renderPastePage render404Page
              render500Page history db _ paste Hdb) as (n & Hn & Hlater).
  rewrite run_pastes_get in *. cbv zeta in *. rewrite Hid.
  destruct (objectid_regex (params_id req)); [|done].
  rewrite Hlater. rewrite Hdb in Hrefused.
  destruct (is_expired paste (getCurrentTime env (Some req))
            || limit_reached paste) eqn:Hdead; [|discriminate Hrefused].
  assert (Hstill : is_expired (with_viewsUsed paste n)
                     (getCurrentTime env' (Some req'))
                   || limit_reached (with_viewsUsed paste n) = true).
  { apply orb_true_iff in Hdead. apply orb_true_iff.
    unfold is_expired, limit_reached in *. simpl.
    destruct Hdead as [Hexp | Hlim]; [left | right].
    - destruct (expiresAt paste); [lia | done].
    - destruct (maxViews paste); [lia | done]. }
  by rewrite Hstill.
Qed.

Lemma dead_paste_stays_dead_witness :
  response
    (run (pastes_get Scenario.test_env (Scenario.get_at "70000" Scenario.id1))
         (foldl (handle (fun _ _ => "page") "gone" "broken")
                {[ Scenario.id1 := Scenario.one_minute ]}
                [ViewPaste Scenario.test_env
                   (Scenario.get_at "2000" Scenario.id1)]))
  = notFoundJson.
Proof.
  refine (dead_paste_stays_dead (fun _ _ => "page") "gone" "broken"
            Scenario.test_env Scenario.test_env
            (Scenario.get_at "61000" Scenario.id1)
            (Scenario.get_at "70000" Scenario.id1)
            {[ Scenario.id1 := Scenario.one_minute ]} Scenario.one_minute
            [ViewPaste Scenario.test_env
               (Scenario.get_at "2000" Scenario.id1)] _ _ _ _);
    first [reflexivity | vm_compute; discriminate].
Defined.

(* ===================================================================== *)
(** ** The race only ever serves too much *)
(* ===================================================================== *)

Lemma run_pool_length {A : Type} (schedule : list nat) (pool : Pool A)
    (db : Store) :
  length (run_pool schedule pool db).1 = length pool.
Proof.
  revert pool db.
  induction schedule as [|i schedule IH]; intros pool db; [done|].
  cbn [run_pool]. unfold step_pool.
  destruct (pool !! i) as [p|]; [|apply IH].
  destruct (step p db) as [p' db']. by rewrite IH, length_insert.
Qed.

Lemma budget_stage_mono (id : string) (paste : Paste) (N v v' : Z)
    (p : Async Response) :
  v <= v' -> budget_stage id paste N v p -> budget_stage id paste N v' p.
Proof.
  intros Hle [env req Hid Hre Hlive | | | Hfull | u];
    [by apply budget_stage_start | apply budget_stage_checked
    | apply budget_stage_incremented | apply budget_stage_refused; lia
    | apply budget_stage_served].
Qed.

Lemma budget_stage_step (id : string) (paste : Paste) (N v : Z)
    (p : Async Response) (db : Store) :
  maxViews paste = Some N ->
  budget_stage id paste N v p ->
  db !! id = Some (with_viewsUsed paste v) ->
  exists v' : Z,
    v <= v' /\
    (step p db).2 !! id = Some (with_viewsUsed paste v') /\
    budget_stage id paste N v' (step p db).1.
Proof.
  intros Hmax Hstage Hdb.
  destruct Hstage as [env req <- Hre Hlive | | | Hfull | u].
  - exists v. split; [lia|]. unfold pastes_get. cbv zeta.
    rewrite Hre. simpl. rewrite Hdb. split; [done|].
    rewrite is_expired_with_viewsUsed, Hlive.
    unfold limit_reached. simpl. rewrite Hmax.
    destruct (Z.leb_spec N v);
      [by apply budget_stage_refused | apply budget_stage_checked].
  - exists (v + 1). split; [lia|]. simpl.
    split; [by rewrite update_inc_lookup, Hdb | apply budget_stage_incremented].
  - exists v. split; [lia|]. simpl. rewrite Hdb.
    split; [done | apply budget_stage_served].
  - exists v. split; [lia|]. simpl.
    split; [done | by apply budget_stage_refused].
  - exists v. split; [lia|]. simpl.
    split; [done | apply budget_stage_served].
Qed.

Lemma run_pool_budget_stages (id : string) (paste : Paste) (N : Z)
    (schedule : list nat) (pool : Pool Response) (db : Store) (v : Z) :
  maxViews paste = Some N ->
  Forall (budget_stage id paste N v) pool ->
  db !! id = Some (with_viewsUsed paste v) ->
  exists v' : Z,
    (run_pool schedule pool db).2 !! id = Some (with_viewsUsed paste v') /\
    Forall (budget_stage id paste N v') (run_pool schedule pool db).1.
Proof.
  intros Hmax. revert pool db v.
  induction schedule as [|i schedule IH]; intros pool db v Hall Hdb.
  - exists v. done.
  - cbn [run_pool]. unfold step_pool.
    destruct (pool !! i) as [p|] eqn:Hp; [|by eapply IH].
    pose proof (Forall_lookup_1 _ _ _ _ Hall Hp) as Hstage.
    destruct (budget_stage_step id paste N v p db Hmax Hstage Hdb)
      as (v1 & Hle & Hdb1 & Hstage1).
    destruct (step p db) as [p' db'] eqn:Hstep. cbn [fst snd] in *.
    eapply IH; [|exact Hdb1].
    apply Forall_insert; [|exact Hstage1].
    eapply Forall_impl; [exact Hall|].
    intros q. by apply budget_stage_mono.
Qed.

Lemma all_served_or_budget_used (id : string) (paste : Paste) (N v : Z)
    (pool : Pool Response) :
  Forall (budget_stage id paste N v) pool ->
  Forall (fun p => is_Some (finished p)) pool ->
  successes (omap finished pool) = length pool \/ N <= v.
Proof.
  induction 1 as [|p pool Hp _ IH]; intros Hdone; [by left|].
  apply Forall_cons in Hdone as [[r Hr] Hdone].
  destruct (IH Hdone) as [Hall | Hfull]; [|by right].
  destruct p as [a| | |]; try discriminate. injection Hr as ->.
  change (omap finished (Return r :: pool)) with (r :: omap finished pool).
  rewrite successes_cons. remember (Return r) as p eqn:Hpr.
  destruct Hp as [env req Hid Hre _ | | | Hfull | u]; try discriminate.
  - unfold pastes_get in Hpr. cbv zeta in Hpr. rewrite Hid, Hre in Hpr.
    discriminate Hpr.
  - by right.
  - injection Hpr as <-. left. simpl. by rewrite Hall.
Qed.

(** X19. The race never serves too little. For reads of one stored paste
    with a budget of [N] views, each with a well-formed identifier and a
    clock before the expiry: however their awaits interleave, once all have
    responded at least [min(m, N - viewsUsed)] of the [m] reads were
    answered 200. *)
Theorem budget_is_never_underserved
    (reads : list (Env * Request)) (schedule : list nat) (db : Store)
    (id : string) (paste : Paste) (N : Z) :
  objectid_regex id = true ->
  Forall (fun er => params_id er.2 = id /\
                    is_expired paste (getCurrentTime er.1 (Some er.2))
                    = false) reads ->
  db !! id = Some paste ->
  maxViews paste = Some N ->
  let outcome :=
    run_pool schedule ((fun er => pastes_get er.1 er.2) <$> reads) db in
  Forall (fun p => is_Some (finished p)) outcome.1 ->
  (Nat.min (length reads) (Z.to_nat (N - viewsUsed paste))
   <= successes (omap finished outcome.1))%nat.
Proof.
  intros Hre Hreads Hdb Hmax outcome Hdone.
  assert (Hids : Forall (fun er => params_id er.2 = id) reads).
  { eapply Forall_impl; [exact Hreads|]. by intros er [H _]. }
  (* the counter equals the number of served reads *)
  destruct (reads_start_at_stage_0 id reads Hids) as [Hstart Hzero].
  destruct (run_pool_read_stages id schedule _ _ db paste Hstart Hdb)
    as (cs & Hcs & Hcount).
  fold outcome in Hcs, Hcount.
  rewrite Hzero, Z.sub_0_r, (total_of_finished id _ _ Hcs Hdone) in Hcount.
  (* a refused read found the budget used up *)
  assert (Hstages : Forall (budget_stage id paste N (viewsUsed paste))
                      ((fun er => pastes_get er.1 er.2) <$> reads)).
  { apply Forall_fmap. eapply Forall_impl; [exact Hreads|].
    intros [env req] [Hid Hlive]. by apply budget_stage_start. }
  destruct (run_pool_budget_stages id paste N schedule _ db (viewsUsed paste)
              Hmax Hstages) as (v & Hv & Hfinal).
  { by rewrite with_viewsUsed_same. }
  fold outcome in Hv, Hfinal. rewrite Hcount in Hv.
  injection Hv as Hv.
  assert (Hlen : length outcome.1 = length reads).
  { unfold outcome. by rewrite run_pool_length, length_fmap. }
  destruct (all_served_or_budget_used id paste N v _ Hfinal Hdone)
    as [Hall | Hfull]; lia.
Qed.

Lemma budget_is_never_underserved_witness :
  (Nat.min 3 (Z.to_nat (1 - viewsUsed Scenario.one_view))
   <= successes
        (omap finished
           (run_pool (lock_step 3)
              ((fun er => pastes_get er.1 er.2)
               <$> [(Scenario.test_env, Scenario.get_at "5" Scenario.id1);
                    (Scenario.test_env, Scenario.get_at "6" Scenario.id1);
                    (Scenario.test_env, Scenario.get_at "7" Scenario.id1)])
              {[ Scenario.id1 := Scenario.one_view ]}).1))%nat.
Proof.
  refine (budget_is_never_underserved
            [(Scenario.test_env, Scenario.get_at "5" Scenario.id1);
             (Scenario.test_env, Scenario.get_at "6" Scenario.id1);
             (Scenario.test_env, Scenario.get_at "7" Scenario.id1)]
            (lock_step 3) {[ Scenario.id1 := Scenario.one_view ]}
            Scenario.id1 Scenario.one_view 1 eq_refl _ eq_refl eq_refl _).
  - repeat constructor.
  - vm_compute. repeat constructor; eexists; reflexivity.
Defined.

(* ===================================================================== *)
(** ** The remaining views of every served read *)
(* ===================================================================== *)




(** With six reads of a paste of one view in lock step the clamp is at
    work: each is told 0 views remain while the document each fetched has
    six views used against one allowed. *)
Example clamp_at_work :
  let outcome :=
    run_pool (lock_step 6)
      (replicate 6 (pastes_get Scenario.test_env
                      (Scenario.get_at "5000" Scenario.id1)))
      {[ Scenario.id1 := Scenario.one_view ]} in
  outcome.1 !! 0%nat
  = Some (Return (mkResponse 200 (JsonPaste "hello" (Some 0) None))) /\
  outcome.2 !! Scenario.id1 = Some (mkPaste "hello" 1000 None (Some 1) 6).
Proof. split; reflexivity. Qed.



(* ===================================================================== *)
(** ** Which headers move the clock *)
(* ===================================================================== *)

Lemma white_space_char_is_white_space (c : ascii) :
  white_space_char c = JS.is_white_space c.
Proof. destruct c as [[] [] [] [] [] [] [] []]; reflexivity. Qed.

Lemma digit_value_decimal_digit (c : ascii) :
  JS.digit_value c
  = if decimal_digit c then Some (Z.of_N (N_of_ascii c) - 48) else None.
Proof. reflexivity. Qed.

Lemma starts_with_digit_decimal (t : string) :
  starts_with_digit t = starts_with decimal_digit t.
Proof.
  destruct t as [|c t]; [done|]. simpl. rewrite digit_value_decimal_digit.
  destruct (decimal_digit c).
  - apply bool_decide_eq_true_2. eauto.
  - apply bool_decide_eq_false_2. by intros [].
Qed.

Lemma decimal_digit_not_special (c : ascii) :
  decimal_digit c = true ->
  white_space_char c = false /\ Ascii.eqb c "-" = false
  /\ Ascii.eqb c "+" = false.
Proof. destruct c as [[] [] [] [] [] [] [] []]; try discriminate; done. Qed.

Lemma string_app_nil_r (s : string) : s ++ "" = s.
Proof.
  induction s as [|c s IH]; [done|]. by rewrite string_app_cons, IH.
Qed.

Lemma skip_white_space_prefix (ws t : string) :
  all_chars white_space_char ws = true ->
  starts_with white_space_char t = false ->
  JS.skip_white_space (ws ++ t) = t.
Proof.
  intros Hws Ht. induction ws as [|c ws IH].
  - change ("" ++ t) with t. destruct t as [|c t]; [done|]. simpl in *.
    by rewrite <- white_space_char_is_white_space, Ht.
  - rewrite string_app_cons. simpl in *.
    apply andb_true_iff in Hws as [Hc Hws].
    rewrite <- white_space_char_is_white_space, Hc. by apply IH.
Qed.

Lemma digits_prefix_numeral (ds rest : string) (acc : Z) :
  all_chars decimal_digit ds = true ->
  starts_with decimal_digit rest = false ->
  JS.digits_prefix (ds ++ rest) (Some acc) = Some (numeral_from acc ds).
Proof.
  intros Hds Hrest. revert acc. induction ds as [|c ds IH]; intros acc.
  - change ("" ++ rest) with rest. destruct rest as [|c rest]; [done|].
    simpl in *. by rewrite digit_value_decimal_digit, Hrest.
  - rewrite string_app_cons. simpl in *.
    apply andb_true_iff in Hds as [Hc Hds].
    rewrite digit_value_decimal_digit, Hc. simpl. by rewrite IH.
Qed.

Lemma digits_prefix_decimal_numeral (ds rest : string) :
  decimal_numeral ds = true ->
  starts_with decimal_digit rest = false ->
  JS.digits_prefix (ds ++ rest) None = Some (numeral_value ds).
Proof.
  unfold decimal_numeral. destruct ds as [|c ds]; [done|]. simpl.
  intros Hds Hrest. apply andb_true_iff in Hds as [Hc Hds].
  rewrite digit_value_decimal_digit, Hc. simpl.
  by rewrite digits_prefix_numeral.
Qed.


(** A header of the first shape is read as its integer. *)
Lemma parseInt_reads_as (h : string) (z : Z) :
  reads_as h z -> JS.parseInt h = Some z.
Proof.
  intros [ws sg ds rest Hws Hds Hrest]. rewrite parseInt_cases.
  assert (Hfirst : exists c ds', ds = String c ds' /\ decimal_digit c = true).
  { unfold decimal_numeral in Hds. destruct ds as [|c ds']; [done|].
    simpl in Hds. apply andb_true_iff in Hds as [Hc _]. eauto. }
  destruct Hfirst as (c & ds' & Hc & Hdigit).
  destruct (decimal_digit_not_special c Hdigit) as (Hnws & Hnm & Hnp).
  subst ds.
  destruct sg; cbn [sign_text signed].
  - change ("" ++ String c ds' ++ rest) with (String c (ds' ++ rest)).
    rewrite skip_white_space_prefix; [|done|done].
    rewrite Hnm, Hnp.
    change (String c (ds' ++ rest)) with (String c ds' ++ rest).
    by apply digits_prefix_decimal_numeral.
  - change ("+" ++ String c ds' ++ rest)
      with (String "+" (String c ds' ++ rest)).
    rewrite skip_white_space_prefix by done.
    change (Ascii.eqb "+" "-") with false. change (Ascii.eqb "+" "+") with true.
    cbn iota. by apply digits_prefix_decimal_numeral.
  - change ("-" ++ String c ds' ++ rest)
      with (String "-" (String c ds' ++ rest)).
    rewrite skip_white_space_prefix by done.
    change (Ascii.eqb "-" "-") with true. cbn iota.
    by rewrite digits_prefix_decimal_numeral.
Qed.





(** On the decimal numeral of a positive integer the clock is what the
    plain reading says. *)
Lemma numeral_header_as_claimed (env : Env) (req : option Request)
    (h : string) :
  test_now_header req = Some h ->
  decimal_numeral h = true ->
  getCurrentTime env req = now_as_claimed env req.
Proof.
  intros Hh Hnum. rewrite getCurrentTime_cases.
  unfold now_as_claimed, valid_positive_instant. rewrite Hh, Hnum.
  assert (Hparse : JS.parseInt h = Some (numeral_value h)).
  { apply (parseInt_reads_as h (signed Unsigned (numeral_value h))).
    rewrite <- (string_app_nil_r h) at 1.
    by apply (reads_as_intro "" Unsigned h ""). }
  rewrite Hparse. destruct (TEST_MODE env) as [mode|]; [|done].
  by destruct (String.eqb mode "1").
Qed.




(* ===================================================================== *)
(** ** A budget of zero *)
(* ===================================================================== *)

(** Requests handled one at a time store budgets of at least 1 only. *)
Lemma handle_keeps_budgets_positive
    (renderPastePage : Paste -> option Z -> string)
    (render404Page render500Page : string)
    (db : Store) (inv : Invocation) :
  (forall id paste m,
      db !! id = Some paste -> maxViews paste = Some m -> 1 <= m) ->
  forall id paste m,
    handle renderPastePage render404Page render500Page db inv !! id
    = Some paste ->
    maxViews paste = Some m -> 1 <= m.
Proof.
  intros Hinv id paste m. unfold handle.
  assert (Hread : forall env req,
    final (run (pastes_get env req) db) !! id = Some paste ->
    maxViews paste = Some m -> 1 <= m).
  { intros env req. rewrite run_pastes_get. cbv zeta.
    destruct (objectid_regex _); [|by eauto].
    destruct (db !! params_id req) as [found|] eqn:Hfound; [|by eauto].
    destruct (_ || _); [by eauto|]. cbn [final].
    destruct (decide (params_id req = id)) as [<-|Hne].
    - rewrite update_inc_lookup, Hfound. intros [= <-]. simpl. eauto.
    - rewrite update_inc_lookup_ne by done. eauto. }
  destruct inv as [env oid req | env req | env req]; cbn [admitted start].
  - destruct (valid_ttl_seconds _); [|by eauto]. cbn [andb].
    destruct (valid_max_views (body req)) eqn:Hvalid; [|by eauto].
    destruct (run_pastes_post env oid req db)
      as [_ [(_ & _ & ->) | [_ ->]]]; [|by eauto].
    destruct (decide (oid = id)) as [<-|Hne].
    + rewrite lookup_insert_eq. intros [= <-].
      unfold new_paste, JS.or, valid_max_views in *. simpl.
      destruct (max_views (body req)) as [| |n]; simpl in *;
        try discriminate.
      destruct (Z.eqb_spec n 0); simpl; [discriminate|].
      intros [= <-]. lia.
    + rewrite lookup_insert_ne by done. eauto.
  - apply Hread.
  - destruct (view_get_mirrors_pastes_get renderPastePage render404Page
                render500Page env req db) as (-> & _).
    apply Hread.
Qed.

(** C10 (as amended). A create request whose [max_views] is the number 0
    does not reach the handler: the validation rule on [max_views] turns it
    away and the collection is left as it was. The handler itself, given a
    [max_views] that is absent, [null] or the number 0, builds a document
    with [maxViews = null]. Whatever requests pass through the routes, one
    at a time, from an empty collection, a stored budget is never below
    1. *)
Theorem zero_max_views_is_turned_away
    (renderPastePage : Paste -> option Z -> string)
    (render404Page render500Page : string)
    (env : Env) (oid : string) (req : Request) (db : Store) :
  max_views (body req) = JS.Num 0 ->
  admitted (PostPaste env oid req) = false /\
  handle renderPastePage render404Page render500Page db
         (PostPaste env oid req) = db /\
  maxViews (new_paste env req) = None /\
  (forall req' : Request,
      JS.truthy (max_views (body req')) = false ->
      maxViews (new_paste env req') = None) /\
  (forall (history : list Invocation) (id : string) (paste : Paste) (m : Z),
      foldl (handle renderPastePage render404Page render500Page) ∅ history
      !! id = Some paste ->
      maxViews paste = Some m -> 1 <= m).
Proof.
  intros Hzero.
  assert (Hout : admitted (PostPaste env oid req) = false).
  { cbn [admitted]. unfold valid_max_views. rewrite Hzero.
    apply andb_false_r. }
  repeat split.
  - exact Hout.
  - unfold handle. by rewrite Hout.
  - unfold new_paste. simpl. by rewrite Hzero.
  - intros req' Hfalsy. unfold new_paste, JS.or. simpl. by rewrite Hfalsy.
  - intros history.
    assert (Hgen : forall db0,
      (forall id paste m,
          db0 !! id = Some paste -> maxViews paste = Some m -> 1 <= m) ->
      forall id paste m,
        foldl (handle renderPastePage render404Page render500Page)
              db0 history !! id = Some paste ->
        maxViews paste = Some m -> 1 <= m).
    { induction history as [|inv history IH]; intros db0 Hinv; [exact Hinv|].
      cbn [foldl]. apply IH.
      by apply handle_keeps_budgets_positive. }
    apply Hgen. intros id paste m Hid. by rewrite lookup_empty in Hid.
Qed.

Lemma zero_max_views_is_turned_away_witness :
  max_views (body (Scenario.post_at "1000"
                     (mkBody "hello" JS.Undefined (JS.Num 0)))) = JS.Num 0 /\
  handle (fun _ _ => "page") "gone" "broken" ∅
    (PostPaste Scenario.test_env Scenario.id1
       (Scenario.post_at "1000" (mkBody "hello" JS.Undefined (JS.Num 0))))
  = ∅.
Proof.
  exact (conj eq_refl
    (proj1 (proj2
       (zero_max_views_is_turned_away (fun _ _ => "page") "gone" "broken"
          Scenario.test_env Scenario.id1
          (Scenario.post_at "1000" (mkBody "hello" JS.Undefined (JS.Num 0)))
          ∅ eq_refl)))).
Defined.

(** C10 as stated does not hold: a create request with [max_views = 0]
    through the route leaves no record at all, hence none with
    [maxViews = null]. *)
Lemma zero_max_views_persists_nothing :
  ~ stored_unlimited
      (handle (fun _ _ => "page") "gone" "broken" ∅
         (PostPaste Scenario.test_env Scenario.id1
            (Scenario.post_at "1000"
               (mkBody "hello" JS.Undefined (JS.Num 0)))))
      Scenario.id1.
Proof. intros (doc & Hdoc & _). vm_compute in Hdoc. discriminate Hdoc. Qed.

(* ===================================================================== *)
(** ** Creating, then reading *)
(* ===================================================================== *)



(** A TTL that the validation admits but whose expiry no Date can hold: the
    document is refused at [save] and the answer is 500. *)
Example ttl_beyond_date_range :
  response (run (pastes_post Scenario.test_env Scenario.id1
                   (Scenario.post_at "1000"
                      (mkBody "hello" (JS.Num 10000000000000)
                              JS.Undefined))) ∅)
  = serverErrorJson.
Proof. reflexivity. Qed.
